(** * Syringe inspection stream simulator (app.py): model and properties

    The script keeps a sample log and a cumulative view in the Streamlit
    session state, appends five tagged samples per streaming interval and
    re-derives running totals for tag-4 and tag-5.  The model below follows
    the script function by function:

    - Python numbers: [int] is [Z]; [float] is IEEE binary64, taken from the
      bit-level specification [SpecFloat] (precision 53, emax 1024);
    - a pandas data frame is the list of its rows in positional order (the
      row labels are dropped: every frame the script stores is rebuilt with
      [ignore_index=True] and no code path reads a label);
    - [st.session_state] is a record threaded through the operations;
    - [datetime.now()] and [np.random.randint] are inputs of the
      operations that call them; a clock reading is an integer (say
      microseconds);
    - a Python exception is the right injection of [result]. *)

From Stdlib Require Import ZArith List String Bool Lia Sorted.
From Stdlib Require Import Floats.SpecFloat.
Import ListNotations.
Open Scope string_scope.
Open Scope list_scope.
Open Scope Z_scope.

(** ** Python exceptions and the error monad *)

Inductive exn : Type :=
| OverflowError
| ValueError
| TypeError
| KeyError
| ZeroDivisionError.

Definition result (A : Type) : Type := (A + exn)%type.

Definition ret {A : Type} (a : A) : result A := inl a.
Definition raise {A : Type} (e : exn) : result A := inr e.

Definition bind {A B : Type} (m : result A) (k : A -> result B) : result B :=
  match m with
  | inl a => k a
  | inr e => inr e
  end.

Notation "x <- m ;; k" := (bind m (fun x => k))
  (at level 61, m at next level, right associativity).

(** ** Python floats (binary64) *)

Module Float.

Definition prec : Z := 53.
Definition emax : Z := 1024.

Definition float : Type := spec_float.

Definition mul : float -> float -> float := SFmul prec emax.
Definition div : float -> float -> float := SFdiv prec emax.
Definition leb : float -> float -> bool := SFleb.
Definition valid : float -> bool := valid_binary prec emax.

(** The double nearest to an integer (round to nearest even). *)
Definition of_Z (n : Z) : float := binary_normalize prec emax n 0 false.

(** [float(n)] for a Python int.  CPython raises [OverflowError] when
    the integer is too large for a double. *)
Definition of_int (n : Z) : result float :=
  match of_Z n with
  | S754_infinity _ => raise OverflowError
  | x => ret x
  end.

(** [int(x)]: truncation toward zero; [int(inf)] raises OverflowError and
    [int(nan)] raises ValueError. *)
Definition to_int (x : float) : result Z :=
  match x with
  | S754_zero _ => ret 0
  | S754_finite s m e => ret (cond_Zopp s (Z.shiftl (Zpos m) e))
  | S754_infinity _ => raise OverflowError
  | S754_nan => raise ValueError
  end.

(** [n * x] and [x / n] with a Python int operand: the int is converted
    first. *)
Definition int_mul (n : Z) (x : float) : result float :=
  fn <- of_int n ;; ret (mul fn x).

(** [x / n] raises ZeroDivisionError for [n = 0]. *)
Definition div_int (x : float) (n : Z) : result float :=
  if n =? 0 then raise ZeroDivisionError
  else fn <- of_int n ;; ret (div x fn).

(** [a / b] on two Python ints: the correctly rounded quotient of the
    integers themselves (CPython's long_true_divide), ZeroDivisionError
    for [b = 0], OverflowError when the quotient exceeds the doubles. *)
Definition int_truediv (a b : Z) : result float :=
  if b =? 0 then raise ZeroDivisionError
  else if a =? 0 then ret (S754_zero (b <? 0))
  else
    let '(q, e, l) := SFdiv_core_binary prec emax (Z.abs a) 0 (Z.abs b) 0 in
    match binary_round_aux prec emax (xorb (a <? 0) (b <? 0)) q e l with
    | S754_infinity _ => raise OverflowError
    | x => ret x
    end.

(** [x * n] with a Python int on the right. *)
Definition mul_int (x : float) (n : Z) : result float :=
  fn <- of_int n ;; ret (mul x fn).

(** The double nearest to the decimal [num / den] (how a literal or a
    slider position such as 0.8 is read). *)
Definition of_ratio (num den : Z) : float :=
  div (of_Z num) (of_Z den).

(** A float is [bounded_float B] when it is a zero or a finite number
    below [2 ^ B] in magnitude. *)
Definition bounded_float (B : Z) (x : float) : Prop :=
  match x with
  | S754_zero _ => True
  | S754_finite _ m e => Zdigits2 (Zpos m) + e <= B
  | _ => False
  end.

End Float.

(** ** Samples and data frames *)

Definition datetime : Type := Z.

(** A cell of the TAGVALUE column.  The column holds the batch labels next
    to the counts, so it has pandas' object dtype and its counts are
    Python ints (unbounded). *)
Inductive value : Type :=
| VInt (n : Z)
| VStr (s : string).

Record Row : Type := mkRow {
  TAGNAME : string;
  TAGVALUE : value;
  TIMESTAMP : datetime
}.

Definition DataFrame : Type := list Row.

Module Pandas.

(** [df.empty] *)
Definition empty (df : DataFrame) : bool :=
  match df with
  | [] => true
  | _ :: _ => false
  end.

(** [df[df['TAGNAME'] == tag]] *)
Definition select_tag (tag : string) (df : DataFrame) : DataFrame :=
  filter (fun r => String.eqb (TAGNAME r) tag) df.

(** [pd.concat(frames, ignore_index=True)] *)
Definition concat (frames : list DataFrame) : DataFrame :=
  List.concat frames.

(** Python's [+] on two cells. *)
Definition add (a b : value) : result value :=
  match a, b with
  | VInt x, VInt y => ret (VInt (x + y))
  | VStr x, VStr y => ret (VStr (String.append x y))
  | _, _ => raise TypeError
  end.

(** [Series.cumsum()] on an object column: the first cell, then each
    cell added to the running value. *)
Fixpoint accumulate (acc : value) (cells : list value) : result (list value) :=
  match cells with
  | [] => ret []
  | x :: rest =>
      s <- add acc x ;;
      tl <- accumulate s rest ;;
      ret (s :: tl)
  end.

Definition cumsum (cells : list value) : result (list value) :=
  match cells with
  | [] => ret []
  | x :: rest => tl <- accumulate x rest ;; ret (x :: tl)
  end.

(** [df['TAGVALUE'] = column], the column carrying the frame's own
    labels: cell by cell. *)
Definition set_TAGVALUE (df : DataFrame) (column : list value) : DataFrame :=
  map (fun rv => mkRow (TAGNAME (fst rv)) (snd rv) (TIMESTAMP (fst rv)))
      (combine df column).

(** [df.groupby('TAGNAME').last().loc[tag, 'TAGVALUE']]: the value of the
    last row carrying the tag, KeyError when no row does. *)
Definition last_value (tag : string) (df : DataFrame) : result value :=
  match rev (select_tag tag df) with
  | r :: _ => ret (TAGVALUE r)
  | [] => raise KeyError
  end.

(** [int(cell)].  A label cell is reported as ValueError (the parse of a
    numeric label is not modelled). *)
Definition int (v : value) : result Z :=
  match v with
  | VInt n => ret n
  | VStr _ => raise ValueError
  end.

(** [a / b] on two cells. *)
Definition truediv (a b : value) : result Float.float :=
  match a, b with
  | VInt x, VInt y => Float.int_truediv x y
  | _, _ => raise TypeError
  end.

End Pandas.

(** ** Sidebar configuration (module-level globals of the script) *)

Record Config : Type := mkConfig {
  batch_name : string;
  stream_speed : Z;
  defect_rate_1 : Float.float;
  defect_rate_2 : Float.float;
  defect_rate_3 : Float.float;
  inspections_per_interval : Z
}.

(** The slider bounds: rates in [0.0, 5.0], inspections in [100, 1000]. *)
Definition rate_in_range (r : Float.float) : bool :=
  Float.valid r && Float.leb (Float.of_Z 0) r && Float.leb r (Float.of_Z 5).

Definition config_ok (cfg : Config) : bool :=
  rate_in_range (defect_rate_1 cfg) && rate_in_range (defect_rate_2 cfg)
  && rate_in_range (defect_rate_3 cfg)
  && (100 <=? inspections_per_interval cfg)
  && (inspections_per_interval cfg <=? 1000).

(** The three [np.random.randint(-2, 3)] draws of one invocation. *)
Record Noise : Type := mkNoise { noise_1 : Z; noise_2 : Z; noise_3 : Z }.

Definition draw_ok (n : Z) : bool := (-2 <=? n) && (n <? 3).

Definition noise_ok (nz : Noise) : bool :=
  draw_ok (noise_1 nz) && draw_ok (noise_2 nz) && draw_ok (noise_3 nz).

(** ** Sample generator *)

(** [int(inspections_per_interval * (defect_rate / 100))] *)
Definition base_defects (inspections : Z) (rate : Float.float) : result Z :=
  r <- Float.div_int rate 100 ;;
  p <- Float.int_mul inspections r ;;
  Float.to_int p.

Definition generate_interval_data (cfg : Config) (nz : Noise)
    (timestamp : datetime) : result DataFrame :=
  defects_1 <- base_defects (inspections_per_interval cfg) (defect_rate_1 cfg) ;;
  defects_2 <- base_defects (inspections_per_interval cfg) (defect_rate_2 cfg) ;;
  defects_3 <- base_defects (inspections_per_interval cfg) (defect_rate_3 cfg) ;;
  let total_defects := defects_1 + defects_2 + defects_3 in
  let defects_1 := defects_1 + noise_1 nz in
  let defects_2 := defects_2 + noise_2 nz in
  let defects_3 := defects_3 + noise_3 nz in
  let defects_1 := Z.max 0 defects_1 in
  let defects_2 := Z.max 0 defects_2 in
  let defects_3 := Z.max 0 defects_3 in
  let total_defects := defects_1 + defects_2 + defects_3 in
  ret [ mkRow "tag-1" (VInt defects_1) timestamp;
        mkRow "tag-2" (VInt defects_2) timestamp;
        mkRow "tag-3" (VInt defects_3) timestamp;
        mkRow "tag-4" (VInt total_defects) timestamp;
        mkRow "tag-5" (VInt (inspections_per_interval cfg)) timestamp ].

(** ** Session state and the aggregation store *)

Record SessionState : Type := mkSession {
  streaming : bool;
  data : DataFrame;
  start_time : datetime;
  cumulative_data : DataFrame
}.

(** The state set up by the first run of the script, at clock reading
    [now]. *)
Definition initial_state (now : datetime) : SessionState :=
  mkSession false [] now [].

(** The loop [for tag in ['tag-4', 'tag-5']] of [update_cumulative_data],
    threading the local list of frames. *)
Fixpoint cumulative_frames (data : DataFrame) (tags : list string)
    (cumulative_data : list DataFrame) : result (list DataFrame) :=
  match tags with
  | [] => ret cumulative_data
  | tag :: tags' =>
      let tag_data := Pandas.select_tag tag data in
      if negb (Pandas.empty tag_data) then
        column <- Pandas.cumsum (map TAGVALUE tag_data) ;;
        let tag_data := Pandas.set_TAGVALUE tag_data column in
        cumulative_frames data tags' (cumulative_data ++ [tag_data])
      else cumulative_frames data tags' cumulative_data
  end.

Definition update_cumulative_data (st : SessionState) : result SessionState :=
  cumulative_data' <- cumulative_frames (data st) ["tag-4"; "tag-5"] [] ;;
  match cumulative_data' with
  | _ :: _ =>
      ret (mkSession (streaming st) (data st) (start_time st)
                     (Pandas.concat cumulative_data'))
  | [] => ret st
  end.

(** ** Plots: what the render consumer reads *)

(** One scatter trace: the (x, y) points of a frame. *)
Definition trace (df : DataFrame) : list (datetime * value) :=
  map (fun r => (TIMESTAMP r, TAGVALUE r)) df.

(** The cumulative view of a tag as [create_plots] reads it for the second
    and third figure: the stored frame filtered by tag. *)
Definition cumulative_view (tag : string) (st : SessionState)
    : list (datetime * value) :=
  trace (Pandas.select_tag tag (cumulative_data st)).

(** A figure is the list of its named traces; a trace is added only for a
    non-empty selection. *)
Definition add_trace (name : string) (df : DataFrame)
    (fig : list (string * list (datetime * value)))
    : list (string * list (datetime * value)) :=
  if negb (Pandas.empty df) then fig ++ [(name, trace df)] else fig.

Definition create_plots (st : SessionState) :=
  let fig1 :=
    fold_left (fun fig tag => add_trace tag (Pandas.select_tag tag (data st)) fig)
              ["tag-1"; "tag-2"; "tag-3"] [] in
  let fig2 :=
    add_trace "Total Cumulative Defects"
              (Pandas.select_tag "tag-4" (cumulative_data st)) [] in
  let fig3 :=
    add_trace "Total Inspected"
              (Pandas.select_tag "tag-5" (cumulative_data st)) [] in
  (fig1, fig2, fig3).

(** ** Metrics *)

Record Metrics : Type := mkMetrics {
  total_inspected : Z;
  total_defects : Z;
  defect_rate : Float.float;   (* shown with two decimals and a percent sign *)
  batch : string
}.

(** The body of [with metrics_placeholder:]; [None] when the guard fails
    and nothing is displayed. *)
Definition display_metrics (batch_name : string) (st : SessionState)
    : result (option Metrics) :=
  if negb (Pandas.empty (data st)) && negb (Pandas.empty (cumulative_data st)) then
    v5 <- Pandas.last_value "tag-5" (cumulative_data st) ;;
    inspected <- Pandas.int v5 ;;
    v4 <- Pandas.last_value "tag-4" (cumulative_data st) ;;
    defects <- Pandas.int v4 ;;
    q <- Pandas.truediv v4 v5 ;;
    defect_rate <- Float.mul_int q 100 ;;
    ret (Some (mkMetrics inspected defects defect_rate batch_name))
  else ret None.

(** ** Streaming controller *)

(** [if st.sidebar.button("Start/Stop Stream")], taken when the button was
    pressed; [now] is the clock reading of [datetime.now()]. *)
Definition start_stop_button (batch_name : string) (now : datetime)
    (st : SessionState) : SessionState :=
  let streaming' := negb (streaming st) in
  if streaming' then
    let batch_start := [mkRow "tag-0" (VStr batch_name) now] in
    mkSession streaming' (Pandas.concat [data st; batch_start]) now
              (cumulative_data st)
  else
    mkSession streaming' (data st) (start_time st) (cumulative_data st).

(** One iteration of [while st.session_state.streaming]: the new state and
    what is displayed. *)
Definition streaming_iteration (cfg : Config) (nz : Noise)
    (current_time : datetime) (st : SessionState)
    : result (SessionState * option Metrics) :=
  new_data <- generate_interval_data cfg nz current_time ;;
  let st := mkSession (streaming st) (Pandas.concat [data st; new_data])
                      (start_time st) (cumulative_data st) in
  st <- update_cumulative_data st ;;
  let figs := create_plots st in
  shown <- display_metrics (batch_name cfg) st ;;
  ret (st, shown).

(** The block after the loop: [if not streaming and not data.empty]. *)
Definition final_display (batch_name : string) (st : SessionState)
    : result (option Metrics) :=
  if negb (streaming st) && negb (Pandas.empty (data st)) then
    let figs := create_plots st in
    display_metrics batch_name st
  else ret None.

(** The session states the script can be in: the first run, then button
    presses and loop iterations (the loop runs only while [streaming], with
    the slider values of the current run and draws in [-2, 2]).  The plot
    and metric calls and the Save Data button leave the session state as it
    is, so an iteration cut short while displaying reaches no other
    state. *)
Inductive reachable : SessionState -> Prop :=
| reach_init (now : datetime) : reachable (initial_state now)
| reach_button (st : SessionState) (batch_name : string) (now : datetime) :
    reachable st -> reachable (start_stop_button batch_name now st)
| reach_iteration (st st' : SessionState) (cfg : Config) (nz : Noise)
    (now : datetime) (shown : option Metrics) :
    reachable st -> streaming st = true ->
    config_ok cfg = true -> noise_ok nz = true ->
    streaming_iteration cfg nz now st = inl (st', shown) ->
    reachable st'.

(** ** Reference definitions the properties are stated against *)

(** The running total at position [i]: the sum of entries [0..i]. *)
Definition running_total (zs : list Z) (i : nat) : Z :=
  fold_right Z.add 0 (firstn (S i) zs).

Definition prefix_sums (zs : list Z) : list Z :=
  map (running_total zs) (seq 0 (List.length zs)).

(** The count held by a cell (a label counts for nothing). *)
Definition count_of (v : value) : Z :=
  match v with
  | VInt n => n
  | VStr _ => 0
  end.

Definition counts (df : DataFrame) : list Z :=
  map (fun r => count_of (TAGVALUE r)) df.

Definition total (zs : list Z) : Z := fold_right Z.add 0 zs.

(** Every cell of the TAGVALUE column is a count. *)
Definition numeric (df : DataFrame) : bool :=
  forallb (fun r => match TAGVALUE r with VInt _ => true | VStr _ => false end) df.

(** The cumulative view of a tag as the data model defines it: the
    timestamps of the tag's samples in log order, each with the running
    total up to that sample. *)
Definition expected_view (tag : string) (log : DataFrame) : list (datetime * value) :=
  combine (map TIMESTAMP (Pandas.select_tag tag log))
          (map VInt (prefix_sums (counts (Pandas.select_tag tag log)))).

(** Rows with their counts replaced by running totals, and the frame this
    gives for one tag of the log. *)
Definition running_rows (df : DataFrame) : DataFrame :=
  Pandas.set_TAGVALUE df (map VInt (prefix_sums (counts df))).

Definition running_frame (tag : string) (log : DataFrame) : DataFrame :=
  running_rows (Pandas.select_tag tag log).

(** The five rows of one interval. *)
Definition interval_rows (d1 d2 d3 d4 d5 : Z) (timestamp : datetime) : DataFrame :=
  [ mkRow "tag-1" (VInt d1) timestamp;
    mkRow "tag-2" (VInt d2) timestamp;
    mkRow "tag-3" (VInt d3) timestamp;
    mkRow "tag-4" (VInt d4) timestamp;
    mkRow "tag-5" (VInt d5) timestamp ].

(** The invariant of the session state: tag-4 and tag-5 samples come in
    pairs and hold counts, defects are non-negative and bounded by the
    inspections, and the stored view is the recomputation of the log. *)
Definition store_inv (st : SessionState) : Prop :=
  let f4 := Pandas.select_tag "tag-4" (data st) in
  let f5 := Pandas.select_tag "tag-5" (data st) in
  numeric f4 = true /\ numeric f5 = true /\
  Forall (fun z => 0 <= z) (counts f4) /\
  Forall (fun z => 100 <= z) (counts f5) /\
  List.length f4 = List.length f5 /\
  total (counts f4) <= 31 * total (counts f5) /\
  cumulative_data st = running_frame "tag-4" (data st) ++ running_frame "tag-5" (data st).

(** [floor (inspections * rate / 100)] for the exact rate [num / den]. *)
Definition floor_base (inspections num den : Z) : Z :=
  (inspections * num) / (den * 100).

(** The configuration of the worked scenario: rates 1.0, 1.5 and 0.8,
    500 inspections. *)
Definition scenario_config : Config :=
  mkConfig "Batch-1" 5 (Float.of_ratio 1 1) (Float.of_ratio 15 10)
           (Float.of_ratio 8 10) 500.

Definition scenario_state : SessionState :=
  start_stop_button "Batch-1" 10 (initial_state 0).

(** The states after the first and the second interval of the scenario
    (noise 0, 0, 0 and then 1, -2, 2), with what the second one shows. *)
Definition scenario_step : SessionState :=
  match streaming_iteration scenario_config (mkNoise 0 0 0) 20 scenario_state with
  | inl (st, _) => st
  | inr _ => scenario_state
  end.

Definition scenario_run : SessionState :=
  match streaming_iteration scenario_config (mkNoise 1 (-2) 2) 30 scenario_step with
  | inl (st, _) => st
  | inr _ => scenario_step
  end.

(** A log with two tag-4 samples around a batch marker and no tag-5
    sample, before any recomputation. *)
Definition defects_only_state : SessionState :=
  mkSession true
    [ mkRow "tag-4" (VInt 3) 1; mkRow "tag-0" (VStr "Batch-2") 2;
      mkRow "tag-4" (VInt 4) 3 ]
    0 [].

(** A log holding only a batch marker, next to a view that holds a row. *)
Definition marker_only_state : SessionState :=
  mkSession false [mkRow "tag-0" (VStr "Batch-1") 10] 10
            [mkRow "tag-4" (VInt 16) 5].


(** ** One run of the script *)

(** How the loop of a run ends: its test fails, or the next rerun
    interrupts the run inside it. *)
Inductive LoopEnd : Type :=
| LoopExit
| Interrupted.

(** The loop [while st.session_state.streaming] of one run, followed for
    as many iterations as [env] supplies noise draws and clock readings.
    Returns how it ended, the state, and what each iteration displayed. *)
Fixpoint streaming_loop (cfg : Config) (env : list (Noise * datetime))
    (st : SessionState) {struct env}
    : result (LoopEnd * SessionState * list (option Metrics)) :=
  if streaming st then
    match env with
    | [] => ret (Interrupted, st, [])
    | (nz, current_time) :: env' =>
        r <- streaming_iteration cfg nz current_time st ;;
        r' <- streaming_loop cfg env' (fst r) ;;
        ret (fst (fst r'), snd (fst r'), snd r :: snd r')
    end
  else ret (LoopExit, st, []).

(** A run of the script in which the Save Data button is not the one
    clicked ([st.sidebar.button("Save Data")] then reads False and its
    block, the only code that writes a file, is skipped), for a session
    state that exists already: the Start/Stop handler when that button was
    [pressed], the loop, and the final block when the loop is left.
    Returns the state and the metrics displayed. *)
Definition script_run (cfg : Config) (pressed : bool) (now : datetime)
    (env : list (Noise * datetime)) (st : SessionState)
    : result (SessionState * list (option Metrics)) :=
  let st := if pressed then start_stop_button (batch_name cfg) now st else st in
  r <- streaming_loop cfg env st ;;
  match fst (fst r) with
  | LoopExit =>
      shown <- final_display (batch_name cfg) (snd (fst r)) ;;
      ret (snd (fst r), snd r ++ [shown])
  | Interrupted => ret (snd (fst r), snd r)
  end.

(** ** Sessions of signals and ticks *)





(** ** The shape of the log *)

(** The timestamps and the counts of one tag, in log order. *)
Definition tag_times (tag : string) (log : DataFrame) : list datetime :=
  map TIMESTAMP (Pandas.select_tag tag log).

Definition tag_counts (tag : string) (log : DataFrame) : list Z :=
  counts (Pandas.select_tag tag log).

(** Position by position, the sum of three series. *)
Fixpoint sum3 (xs ys zs : list Z) : list Z :=
  match xs, ys, zs with
  | x :: xs', y :: ys', z :: zs' => (x + y + z) :: sum3 xs' ys' zs'
  | _, _, _ => []
  end.

(** A log made of batch markers and complete intervals, every interval
    after at least one marker. *)
Inductive log_shape : DataFrame -> Prop :=
| shape_empty : log_shape []
| shape_marker (log : DataFrame) (name : string) (now : datetime) :
    log_shape log ->
    log_shape (log ++ [mkRow "tag-0" (VStr name) now])
| shape_interval (log : DataFrame) (d1 d2 d3 d5 : Z) (now : datetime) :
    log_shape log -> log <> [] ->
    0 <= d1 -> 0 <= d2 -> 0 <= d3 -> 100 <= d5 <= 1000 ->
    log_shape (log ++ interval_rows d1 d2 d3 (d1 + d2 + d3) d5 now).

(** A row as the script writes them: a batch marker with its label, or
    one of the five series with a non-negative count. *)
Definition sample_ok (r : Row) : Prop :=
  (TAGNAME r = "tag-0" /\ exists name, TAGVALUE r = VStr name) \/
  (In (TAGNAME r) ["tag-1"; "tag-2"; "tag-3"; "tag-4"; "tag-5"] /\
   exists n, TAGVALUE r = VInt n /\ 0 <= n).

(** A float that, when finite and not zero, has the sign bit [s]. *)
Definition signed_float (s : bool) (x : Float.float) : Prop :=
  match x with
  | S754_finite s' _ _ => s' = s
  | _ => True
  end.

(** The traces the three figures hold once intervals with time axis [ts]
    and series [c1], [c2], [c3], [c5] were generated. *)
Definition expected_plots (ts : list datetime) (c1 c2 c3 c5 : list Z) :=
  match ts with
  | [] => ([], [], [])
  | _ :: _ =>
      ([ ("tag-1", combine ts (map VInt c1));
         ("tag-2", combine ts (map VInt c2));
         ("tag-3", combine ts (map VInt c3)) ],
       [ ("Total Cumulative Defects",
          combine ts (map VInt (prefix_sums (sum3 c1 c2 c3)))) ],
       [ ("Total Inspected", combine ts (map VInt (prefix_sums c5))) ])
  end.


(** The readings of the scenario's two intervals. *)
Definition scenario_env : list (Noise * datetime) :=
  [ (mkNoise 0 0 0, 20); (mkNoise 1 (-2) 2, 30) ].

(** ** Facts about binary64 rounding used for totality *)

Module FloatFacts.
Import Float.

Lemma digits2_pos_size (p : positive) : digits2_pos p = Pos.size p.
Proof. induction p; simpl; congruence. Qed.

Lemma Zdigits2_log2 (p : positive) :
  Zdigits2 (Zpos p) = Z.log2 (Zpos p) + 1.
Proof.
  destruct p; simpl; rewrite ?digits2_pos_size, ?Pos2Z.inj_succ; lia.
Qed.

Lemma Zdigits2_nonneg (m : Z) : 0 <= Zdigits2 m.
Proof. destruct m; simpl; lia. Qed.

Lemma Zdigits2_lt (m : Z) : 0 <= m -> m < 2 ^ Zdigits2 m.
Proof.
  destruct m as [|p|p]; intros H; [reflexivity| |lia].
  rewrite Zdigits2_log2. apply Z.log2_spec. lia.
Qed.

Lemma Zdigits2_ge (m : Z) : 0 < m -> 2 ^ (Zdigits2 m - 1) <= m.
Proof.
  destruct m as [|p|p]; intros H; try lia.
  rewrite Zdigits2_log2. replace (Z.log2 (Z.pos p) + 1 - 1) with (Z.log2 (Z.pos p)) by lia.
  apply Z.log2_spec. lia.
Qed.

Lemma Zdigits2_ub (m k : Z) : 0 <= m -> 0 <= k -> m < 2 ^ k -> Zdigits2 m <= k.
Proof.
  destruct m as [|p|p]; intros H Hk Hlt; [simpl; lia| |lia].
  rewrite Zdigits2_log2.
  assert (Z.log2 (Z.pos p) < k) by (apply Z.log2_lt_pow2; lia).
  lia.
Qed.

Lemma Zdigits2_shiftr (m n : Z) :
  0 <= m -> 0 <= n -> 0 < Z.shiftr m n -> Zdigits2 (Z.shiftr m n) + n <= Zdigits2 m.
Proof.
  intros Hm Hn Hpos.
  pose proof (Zdigits2_lt m Hm) as Hlt.
  pose proof (Zdigits2_nonneg m) as Hd.
  rewrite Z.shiftr_div_pow2 in * by assumption.
  assert (Hp : 0 < 2 ^ n) by (apply Z.pow_pos_nonneg; lia).
  destruct (Z_lt_le_dec (Zdigits2 m) n) as [Hsmall|Hbig].
  - assert (m < 2 ^ n).
    { eapply Z.lt_le_trans; [exact Hlt|]. apply Z.pow_le_mono_r; lia. }
    rewrite Z.div_small in Hpos by lia. lia.
  - enough (Zdigits2 (m / 2 ^ n) <= Zdigits2 m - n) by lia.
    apply Zdigits2_ub; try lia.
    apply Z.div_lt_upper_bound; [lia|].
    rewrite <- Z.pow_add_r by lia.
    replace (n + (Zdigits2 m - n)) with (Zdigits2 m) by lia. exact Hlt.
Qed.

Lemma Zdigits2_succ (m : Z) : 0 <= m -> Zdigits2 (m + 1) <= Zdigits2 m + 1.
Proof.
  intros Hm. pose proof (Zdigits2_lt m Hm). pose proof (Zdigits2_nonneg m).
  apply Zdigits2_ub; try lia.
  rewrite Z.pow_add_r by lia. change (2 ^ 1) with 2. lia.
Qed.

Lemma Zdigits2_mul (a b : Z) :
  0 <= a -> 0 <= b -> Zdigits2 (a * b) <= Zdigits2 a + Zdigits2 b.
Proof.
  intros Ha Hb.
  pose proof (Zdigits2_lt a Ha). pose proof (Zdigits2_lt b Hb).
  pose proof (Zdigits2_nonneg a). pose proof (Zdigits2_nonneg b).
  apply Zdigits2_ub; try nia.
  rewrite Z.pow_add_r by lia. nia.
Qed.

(** One right shift of the rounding record halves its mantissa. *)
Lemma shr_1_m (mrs : shr_record) :
  0 <= shr_m mrs -> shr_m (shr_1 mrs) = Z.shiftr (shr_m mrs) 1.
Proof.
  destruct mrs as [m r s]; simpl.
  destruct m as [|[p|p|]|p]; intros H; try reflexivity; lia.
Qed.

Lemma iter_shr_m (p : positive) : forall mrs,
  0 <= shr_m mrs ->
  shr_m (iter_pos shr_1 p mrs) = Z.shiftr (shr_m mrs) (Zpos p).
Proof.
  induction p as [p IH|p IH|]; intros mrs H; simpl.
  - assert (H1 : 0 <= shr_m (shr_1 mrs)).
    { rewrite shr_1_m by assumption. apply Z.shiftr_nonneg. assumption. }
    assert (H2 : 0 <= shr_m (iter_pos shr_1 p (shr_1 mrs))).
    { rewrite IH by assumption. apply Z.shiftr_nonneg. assumption. }
    rewrite IH, IH, shr_1_m by assumption.
    rewrite !Z.shiftr_shiftr by lia. f_equal. lia.
  - assert (H2 : 0 <= shr_m (iter_pos shr_1 p mrs)).
    { rewrite IH by assumption. apply Z.shiftr_nonneg. assumption. }
    rewrite IH, IH by assumption.
    rewrite Z.shiftr_shiftr by lia. f_equal. lia.
  - apply shr_1_m. assumption.
Qed.

Lemma shr_m_of_loc (m : Z) (l : location) : shr_m (shr_record_of_loc m l) = m.
Proof. destruct l as [|[]]; reflexivity. Qed.

Lemma fexp_eq (x : Z) : fexp prec emax x = Z.max (x - 53) (-1074).
Proof. reflexivity. Qed.

(** The first step of rounding: the mantissa stays non-negative, the
    exponent becomes [max e (fexp (digits m + e))], and the magnitude
    [digits + exponent] does not grow beyond that exponent. *)
Lemma shr_fexp_spec (m e : Z) (l : location) :
  0 <= m ->
  0 <= shr_m (fst (shr_fexp prec emax m e l)) /\
  snd (shr_fexp prec emax m e l) = Z.max e (fexp prec emax (Zdigits2 m + e)) /\
  Zdigits2 (shr_m (fst (shr_fexp prec emax m e l))) + snd (shr_fexp prec emax m e l)
    <= Z.max (Zdigits2 m + e) (snd (shr_fexp prec emax m e l)).
Proof.
  intros Hm. unfold shr_fexp, shr.
  destruct (fexp prec emax (Zdigits2 m + e) - e) as [|p|p] eqn:En; simpl fst; simpl snd;
    rewrite ?shr_m_of_loc.
  - repeat split; lia.
  - rewrite iter_shr_m by (rewrite shr_m_of_loc; assumption).
    rewrite shr_m_of_loc.
    assert (Hs : 0 <= Z.shiftr m (Z.pos p)) by (apply Z.shiftr_nonneg; assumption).
    repeat split; try lia.
    destruct (Z.eq_dec (Z.shiftr m (Z.pos p)) 0) as [E0|E0].
    + rewrite E0. simpl. lia.
    + pose proof (Zdigits2_shiftr m (Z.pos p) Hm ltac:(lia) ltac:(lia)). lia.
  - repeat split; lia.
Qed.

Lemma round_nearest_even_range (m : Z) (l : location) :
  m <= round_nearest_even m l <= m + 1.
Proof.
  destruct l as [|[]]; simpl; try lia. destruct (Z.even m); lia.
Qed.

Lemma bounded_float_mono (B B' : Z) (x : float) :
  B <= B' -> bounded_float B x -> bounded_float B' x.
Proof. destruct x; simpl; intros; try assumption; lia. Qed.

(** Rounding a non-negative mantissa of magnitude at most [B] gives a
    zero or a finite double of magnitude at most [B + 1]: no overflow,
    no NaN. *)
Lemma binary_round_aux_bounded (s : bool) (m e : Z) (l : location) (B : Z) :
  0 <= m -> Zdigits2 m + e <= B -> -1074 <= B <= 970 ->
  bounded_float (B + 1) (binary_round_aux prec emax s m e l).
Proof.
  intros Hm Hmag HB. unfold binary_round_aux.
  pose proof (shr_fexp_spec m e l Hm) as (Hm1 & He1 & Hmag1).
  destruct (shr_fexp prec emax m e l) as [mrs1 e1]. simpl fst in *; simpl snd in *.
  pose proof (round_nearest_even_range (shr_m mrs1) (loc_of_shr_record mrs1)) as Hr.
  set (m1 := round_nearest_even (shr_m mrs1) (loc_of_shr_record mrs1)) in *.
  assert (Hm1' : 0 <= m1) by lia.
  assert (Hd1 : Zdigits2 m1 <= Zdigits2 (shr_m mrs1) + 1).
  { destruct (Z.eq_dec m1 (shr_m mrs1)) as [->|Hne]; [lia|].
    replace m1 with (shr_m mrs1 + 1) by lia. apply Zdigits2_succ. assumption. }
  pose proof (shr_fexp_spec m1 e1 loc_Exact Hm1') as (Hm2 & He2 & Hmag2).
  destruct (shr_fexp prec emax m1 e1 loc_Exact) as [mrs2 e2]. simpl fst in *; simpl snd in *.
  pose proof (Zdigits2_nonneg m) as Hdm.
  rewrite fexp_eq in He1, He2.
  destruct (shr_m mrs2) as [|p|p] eqn:E2; [exact I| |exfalso; lia].
  assert (Hle : e2 <= 971) by lia.
  apply Z.leb_le in Hle. change (emax - prec) with 971. rewrite Hle.
  unfold bounded_float. lia.
Qed.

Lemma digits2_pos_iter_xO (d m : positive) :
  Zpos (digits2_pos (Pos.iter xO m d)) = Zpos (digits2_pos m) + Zpos d.
Proof.
  induction d as [|d IH] using Pos.peano_ind.
  - simpl. lia.
  - rewrite Pos.iter_succ. simpl digits2_pos. lia.
Qed.

Lemma shl_align_mag (mx : positive) (ex ex' : Z) :
  Zdigits2 (Zpos (fst (shl_align mx ex ex'))) + snd (shl_align mx ex ex')
  = Zdigits2 (Zpos mx) + ex.
Proof.
  unfold shl_align. destruct (ex' - ex) as [|d|d] eqn:E; simpl fst; simpl snd; try reflexivity.
  unfold Zdigits2. rewrite digits2_pos_iter_xO. lia.
Qed.

Lemma binary_round_bounded (s : bool) (p : positive) (e B : Z) :
  Zdigits2 (Zpos p) + e <= B -> -1074 <= B <= 970 ->
  bounded_float (B + 1) (binary_round prec emax s p e).
Proof.
  intros Hmag HB. unfold binary_round.
  pose proof (shl_align_mag p e (fexp prec emax (Z.pos (digits2_pos p) + e))) as Hal.
  destruct (shl_align p e (fexp prec emax (Z.pos (digits2_pos p) + e))) as [mz ez].
  simpl fst in Hal; simpl snd in Hal.
  apply binary_round_aux_bounded; lia.
Qed.

(** [float(n)] succeeds on every int below [2 ^ k] in absolute value. *)
Lemma of_int_bounded (n k : Z) :
  Z.abs n < 2 ^ k -> 0 <= k <= 970 ->
  exists x, of_int n = inl x /\ bounded_float (k + 1) x.
Proof.
  intros Hn Hk. unfold of_int, of_Z, binary_normalize.
  destruct n as [|p|p].
  - eexists; split; [reflexivity|exact I].
  - assert (Hb : bounded_float (k + 1) (binary_round prec emax false p 0)).
    { apply binary_round_bounded; [|lia].
      pose proof (Zdigits2_ub (Zpos p) k). simpl Z.abs in Hn. lia. }
    destruct (binary_round prec emax false p 0); simpl in Hb; try contradiction;
      eexists; (split; [reflexivity|]); simpl; assumption.
  - assert (Hb : bounded_float (k + 1) (binary_round prec emax true p 0)).
    { apply binary_round_bounded; [|lia].
      pose proof (Zdigits2_ub (Zpos p) k). simpl Z.abs in Hn. lia. }
    destruct (binary_round prec emax true p 0); simpl in Hb; try contradiction;
      eexists; (split; [reflexivity|]); simpl; assumption.
Qed.

(** The quotient mantissa computed by the division core is non-negative
    and its magnitude exceeds the difference of magnitudes by at most
    one. *)
Lemma SFdiv_core_bound (m1 e1 m2 e2 : Z) :
  0 < m1 -> 0 < m2 ->
  0 <= fst (fst (SFdiv_core_binary prec emax m1 e1 m2 e2)) /\
  Zdigits2 (fst (fst (SFdiv_core_binary prec emax m1 e1 m2 e2)))
    + snd (fst (SFdiv_core_binary prec emax m1 e1 m2 e2))
  <= Z.max (Zdigits2 m1 + e1 - (Zdigits2 m2 + e2) + 1) (-1074).
Proof.
  intros H1 H2. unfold SFdiv_core_binary.
  rewrite fexp_eq.
  set (D := Zdigits2 m1 + e1 - (Zdigits2 m2 + e2)).
  set (e' := Z.min (Z.max (D - 53) (-1074)) (e1 - e2)).
  set (s := e1 - e2 - e').
  assert (Hs : 0 <= s) by (unfold s, e'; lia).
  set (m' := match s with Z.pos _ => Z.shiftl m1 s | Z0 => m1 | Z.neg _ => 0 end).
  assert (Hm' : m' = m1 * 2 ^ s).
  { unfold m'. destruct s as [|p|p] eqn:Es.
    - simpl. lia.
    - rewrite Z.shiftl_mul_pow2 by lia. reflexivity.
    - lia. }
  pose proof (Z_div_mod m' m2 ltac:(lia)) as Hdm.
  destruct (Z.div_eucl m' m2) as [q r]. simpl fst; simpl snd.
  destruct Hdm as [Hq Hr].
  assert (Hps : 0 < 2 ^ s) by (apply Z.pow_pos_nonneg; lia).
  assert (Hq0 : 0 <= q) by nia.
  split; [assumption|].
  destruct (Z.eq_dec q 0) as [->|Hqne].
  - simpl. unfold e'. lia.
  - enough (Zdigits2 q <= Zdigits2 m1 + s - Zdigits2 m2 + 1) by (unfold s, D in *; lia).
    pose proof (Zdigits2_lt m1 ltac:(lia)) as Hu1.
    pose proof (Zdigits2_ge m2 H2) as Hl2.
    pose proof (Zdigits2_nonneg m1) as Hn1.
    assert (Hd2 : 1 <= Zdigits2 m2) by (destruct m2; simpl; lia).
    assert (Hpow2 : 0 < 2 ^ (Zdigits2 m2 - 1)) by (apply Z.pow_pos_nonneg; lia).
    assert (Hnum : m' < 2 ^ (Zdigits2 m1 + s)).
    { rewrite Z.pow_add_r by lia. nia. }
    destruct (Z_lt_le_dec (Zdigits2 m1 + s - Zdigits2 m2 + 1) 0) as [Hneg|Hpos].
    + exfalso.
      assert (2 ^ (Zdigits2 m1 + s) <= 2 ^ (Zdigits2 m2 - 1))
        by (apply Z.pow_le_mono_r; lia).
      nia.
    + apply Zdigits2_ub; try lia.
      assert (Hsplit : 2 ^ (Zdigits2 m1 + s)
                       = 2 ^ (Zdigits2 m2 - 1) * 2 ^ (Zdigits2 m1 + s - Zdigits2 m2 + 1)).
      { rewrite <- Z.pow_add_r by lia. f_equal. lia. }
      nia.
Qed.

Lemma div_bounded (x : float) (sy : bool) (my : positive) (ey Bx : Z) :
  bounded_float Bx x ->
  Z.max (Bx - (Zdigits2 (Zpos my) + ey) + 1) (-1074) <= 970 ->
  bounded_float (Z.max (Bx - (Zdigits2 (Zpos my) + ey) + 1) (-1074) + 1)
                (div x (S754_finite sy my ey)).
Proof.
  intros Hx HB. destruct x as [sx|sx| |sx mx ex]; cbn [bounded_float] in Hx; try contradiction.
  - exact I.
  - unfold div, SFdiv.
    pose proof (SFdiv_core_bound (Zpos mx) ex (Zpos my) ey ltac:(lia) ltac:(lia)) as [Hq Hmag].
    destruct (SFdiv_core_binary prec emax (Z.pos mx) ex (Z.pos my) ey) as [[mz ez] lz].
    simpl fst in *; simpl snd in *.
    apply binary_round_aux_bounded; lia.
Qed.

Lemma mul_bounded (x y : float) (Bx By : Z) :
  bounded_float Bx x -> bounded_float By y ->
  Z.max (Bx + By) (-1074) <= 970 ->
  bounded_float (Z.max (Bx + By) (-1074) + 1) (mul x y).
Proof.
  intros Hx Hy HB.
  destruct x as [sx|sx| |sx mx ex]; cbn [bounded_float] in Hx; try contradiction;
    destruct y as [sy|sy| |sy my ey]; cbn [bounded_float] in Hy; try contradiction;
    try exact I.
  unfold mul, SFmul.
  apply binary_round_aux_bounded; try lia.
  pose proof (Zdigits2_mul (Zpos mx) (Zpos my) ltac:(lia) ltac:(lia)) as Hm.
  rewrite <- Pos2Z.inj_mul in Hm.
  change (Zdigits2 (Z.pos mx)) with (Z.pos (digits2_pos mx)) in *.
  change (Zdigits2 (Z.pos my)) with (Z.pos (digits2_pos my)) in *.
  change (Zdigits2 (Z.pos (mx * my))) with (Z.pos (digits2_pos (mx * my))) in *.
  lia.
Qed.

(** [int(x)] succeeds on zeros and finite floats. *)
Lemma to_int_bounded (x : float) (B : Z) :
  bounded_float B x -> exists z, to_int x = inl z.
Proof.
  destruct x; simpl; intros H; try contradiction; eexists; reflexivity.
Qed.

Lemma to_int_bounded_abs (x : float) (B : Z) :
  0 <= B -> bounded_float B x ->
  exists z, to_int x = inl z /\ Z.abs z < 2 ^ B.
Proof.
  intros HB Hx. destruct x as [s|s| |s m e]; cbn [bounded_float] in Hx; try contradiction.
  - exists 0. split; [reflexivity|]. simpl. apply Z.pow_pos_nonneg; lia.
  - eexists. split; [reflexivity|].
    assert (Hsh : 0 <= Z.shiftl (Z.pos m) e < 2 ^ B).
    { pose proof (Zdigits2_lt (Zpos m) ltac:(lia)) as Hlt.
      pose proof (Zdigits2_nonneg (Zpos m)) as Hd.
      change (Z.pos (digits2_pos m)) with (Zdigits2 (Z.pos m)) in Hx.
      destruct (Z_lt_le_dec e 0) as [Hneg|Hpos].
      - rewrite <- (Z.opp_involutive e), Z.shiftl_opp_r.
        rewrite Z.shiftr_div_pow2 by lia.
        assert (Hp : 0 < 2 ^ (- e)) by (apply Z.pow_pos_nonneg; lia).
        split; [apply Z.div_pos; lia|].
        apply Z.div_lt_upper_bound; [lia|].
        assert (2 ^ Zdigits2 (Z.pos m) <= 2 ^ (- e + B)) by (apply Z.pow_le_mono_r; lia).
        rewrite <- Z.pow_add_r by lia. lia.
      - rewrite Z.shiftl_mul_pow2 by lia.
        assert (Hp : 0 < 2 ^ e) by (apply Z.pow_pos_nonneg; lia).
        split; [nia|].
        assert (2 ^ (Zdigits2 (Z.pos m) + e) <= 2 ^ B) by (apply Z.pow_le_mono_r; lia).
        rewrite Z.pow_add_r in * by lia. nia. }
    destruct s; simpl; lia.
Qed.

Lemma of_Z_5 : of_Z 5 = S754_finite false 5629499534213120 (-50).
Proof. reflexivity. Qed.

Lemma of_int_100 : of_int 100 = inl (S754_finite false 7036874417766400 (-46)).
Proof. reflexivity. Qed.

(** A rate inside the slider bounds is a zero or a finite double below 8. *)
Lemma rate_bounded (r : float) : rate_in_range r = true -> bounded_float 3 r.
Proof.
  unfold rate_in_range. rewrite of_Z_5. intros H.
  apply andb_prop in H as [H Hle5]. apply andb_prop in H as [Hv Hle0].
  destruct r as [s|s| |s m e]; cbn [bounded_float].
  - exact I.
  - destruct s; discriminate.
  - discriminate.
  - destruct s; [discriminate|]. cbn [Zdigits2].
    unfold valid, valid_binary, bounded, canonical_mantissa in Hv.
    apply andb_prop in Hv as [Hc _]. apply Z.eqb_eq in Hc. rewrite fexp_eq in Hc.
    unfold leb, SFleb, SFcompare in Hle5.
    destruct (e ?= -50) eqn:Ecmp.
    + apply Z.compare_eq in Ecmp. lia.
    + rewrite Z.compare_lt_iff in Ecmp. lia.
    + discriminate.
Qed.

(** The quotient of two ints is a double whenever the numerator is at
    most 31 times the (positive) denominator. *)
Lemma int_truediv_total (a b : Z) :
  0 <= a -> 0 < b -> a <= 31 * b ->
  exists q, int_truediv a b = inl q /\ bounded_float 7 q.
Proof.
  intros Ha Hb Hab. unfold int_truediv.
  destruct (Z.eqb_spec b 0) as [|_]; [lia|].
  destruct (Z.eqb_spec a 0) as [|Hne].
  - eexists. split; [reflexivity|exact I].
  - rewrite (Z.abs_eq a), (Z.abs_eq b) by lia.
    pose proof (SFdiv_core_bound a 0 b 0 ltac:(lia) Hb) as [Hq Hmag].
    destruct (SFdiv_core_binary prec emax a 0 b 0) as [[q e] l].
    simpl fst in *; simpl snd in *.
    assert (Hda : Zdigits2 a <= Zdigits2 b + 5).
    { pose proof (Zdigits2_lt b ltac:(lia)) as Hlt.
      pose proof (Zdigits2_nonneg b) as Hnn.
      apply Zdigits2_ub; try lia.
      rewrite Z.pow_add_r by lia. change (2 ^ 5) with 32. lia. }
    assert (Hr : bounded_float (6 + 1)
                   (binary_round_aux prec emax (xorb (a <? 0) (b <? 0)) q e l)).
    { apply binary_round_aux_bounded; lia. }
    destruct (binary_round_aux prec emax (xorb (a <? 0) (b <? 0)) q e l);
      cbn [bounded_float] in Hr; try contradiction;
      eexists; (split; [reflexivity|]); cbn [bounded_float]; auto.
Qed.

End FloatFacts.

(** ** The sample generator *)

Section Generator.
Import Float FloatFacts.

(** With slider values in range every step of
    [int(inspections * (rate / 100))] is defined, and the result is below
    1024 in absolute value. *)
Lemma base_defects_total (n : Z) (r : float) :
  100 <= n <= 1000 -> rate_in_range r = true ->
  exists z, base_defects n r = inl z /\ Z.abs z < 1024.
Proof.
  intros Hn Hr. unfold base_defects, div_int.
  change (100 =? 0) with false. cbv iota. rewrite of_int_100. cbn [bind ret].
  assert (Hq : bounded_float (-2) (div r (S754_finite false 7036874417766400 (-46)))).
  { eapply bounded_float_mono;
      [|apply (div_bounded r false 7036874417766400 (-46) 3 (rate_bounded r Hr))];
      vm_compute; discriminate. }
  destruct (of_int_bounded n 10) as (fn & Efn & Hfn);
    [change (2 ^ 10) with 1024; lia|lia|].
  unfold int_mul. rewrite Efn. cbn [bind ret].
  assert (Hp : bounded_float 10 (mul fn (div r (S754_finite false 7036874417766400 (-46))))).
  { eapply bounded_float_mono; [|apply (mul_bounded _ _ (10 + 1) (-2) Hfn Hq)];
      vm_compute; discriminate. }
  destruct (to_int_bounded_abs _ 10 ltac:(lia) Hp) as (z & Ez & Hz).
  exists z. split; [exact Ez|exact Hz].
Qed.

Lemma config_ok_inv (cfg : Config) :
  config_ok cfg = true ->
  rate_in_range (defect_rate_1 cfg) = true /\
  rate_in_range (defect_rate_2 cfg) = true /\
  rate_in_range (defect_rate_3 cfg) = true /\
  100 <= inspections_per_interval cfg <= 1000.
Proof.
  unfold config_ok. intros H.
  apply andb_prop in H as [H H5]. apply andb_prop in H as [H H4].
  apply andb_prop in H as [H H3]. apply andb_prop in H as [H1 H2].
  apply Z.leb_le in H4, H5. auto.
Qed.

(** The shape of the generator's output: three clamped counts, their
    sum, and the inspection count. *)
Lemma generate_interval_data_shape (cfg : Config) (nz : Noise) (timestamp : datetime) :
  config_ok cfg = true ->
  exists b1 b2 b3,
    Z.abs b1 < 1024 /\ Z.abs b2 < 1024 /\ Z.abs b3 < 1024 /\
    generate_interval_data cfg nz timestamp
    = inl (interval_rows
             (Z.max 0 (b1 + noise_1 nz)) (Z.max 0 (b2 + noise_2 nz))
             (Z.max 0 (b3 + noise_3 nz))
             (Z.max 0 (b1 + noise_1 nz) + Z.max 0 (b2 + noise_2 nz)
              + Z.max 0 (b3 + noise_3 nz))
             (inspections_per_interval cfg) timestamp).
Proof.
  intros Hcfg. apply config_ok_inv in Hcfg as (H1 & H2 & H3 & Hn).
  destruct (base_defects_total _ _ Hn H1) as (b1 & E1 & Hb1).
  destruct (base_defects_total _ _ Hn H2) as (b2 & E2 & Hb2).
  destruct (base_defects_total _ _ Hn H3) as (b3 & E3 & Hb3).
  exists b1, b2, b3. repeat split; try assumption.
  unfold generate_interval_data. rewrite E1, E2, E3. reflexivity.
Qed.

End Generator.

(** ** Running totals *)

Section RunningTotals.

Lemma running_total_cons (x : Z) (t : list Z) (i : nat) :
  running_total (x :: t) (S i) = x + running_total t i.
Proof. reflexivity. Qed.

Lemma prefix_sums_cons (x : Z) (t : list Z) :
  prefix_sums (x :: t) = x :: map (Z.add x) (prefix_sums t).
Proof.
  unfold prefix_sums. cbn [List.length seq map]. f_equal.
  - unfold running_total. simpl. lia.
  - rewrite <- seq_shift, !map_map. apply map_ext. intros i.
    apply running_total_cons.
Qed.

Lemma prefix_sums_length (zs : list Z) :
  List.length (prefix_sums zs) = List.length zs.
Proof. unfold prefix_sums. rewrite length_map, length_seq. reflexivity. Qed.

Lemma prefix_sums_snoc (zs : list Z) (z : Z) :
  prefix_sums (zs ++ [z]) = prefix_sums zs ++ [total zs + z].
Proof.
  induction zs as [|x t IH].
  - cbn. f_equal. lia.
  - cbn [app]. rewrite !prefix_sums_cons, IH, map_app. cbn [map app total fold_right].
    do 2 f_equal. fold (total t). f_equal. lia.
Qed.

Lemma total_app (xs ys : list Z) : total (xs ++ ys) = total xs + total ys.
Proof. induction xs as [|x t IH]; cbn; [reflexivity|]. fold (total (t ++ ys)) (total t). lia. Qed.

(** The running value of [cumsum] is the accumulator plus the prefix
    sum. *)
Lemma accumulate_counts (zs : list Z) : forall a,
  Pandas.accumulate (VInt a) (map VInt zs)
  = inl (map VInt (map (Z.add a) (prefix_sums zs))).
Proof.
  induction zs as [|x t IH]; intros a.
  - reflexivity.
  - cbn [map Pandas.accumulate Pandas.add bind ret].
    rewrite IH. cbn [bind ret]. rewrite prefix_sums_cons. cbn [map].
    rewrite !map_map. unfold ret. do 2 f_equal. apply map_ext. intros y. f_equal. lia.
Qed.

Lemma cumsum_counts (zs : list Z) :
  Pandas.cumsum (map VInt zs) = inl (map VInt (prefix_sums zs)).
Proof.
  destruct zs as [|x t]; [reflexivity|].
  cbn [map Pandas.cumsum]. rewrite accumulate_counts. cbn [bind ret].
  rewrite prefix_sums_cons. reflexivity.
Qed.

Lemma prefix_sums_nonneg (zs : list Z) :
  Forall (fun z => 0 <= z) zs -> Forall (fun z => 0 <= z) (prefix_sums zs).
Proof.
  induction 1 as [|x t Hx Ht IH].
  - constructor.
  - rewrite prefix_sums_cons. constructor; [assumption|].
    rewrite Forall_map. eapply Forall_impl; [|exact IH]. cbn. intros; lia.
Qed.

(** Running totals of non-negative counts never decrease. *)
Lemma prefix_sums_sorted (zs : list Z) :
  Forall (fun z => 0 <= z) zs -> StronglySorted Z.le (prefix_sums zs).
Proof.
  induction 1 as [|x t Hx Ht IH].
  - constructor.
  - rewrite prefix_sums_cons. constructor.
    + clear Hx. induction IH as [|y l Hl IHl Hy]; cbn [map]; constructor.
      * apply IHl.
      * rewrite Forall_map. eapply Forall_impl; [|exact Hy]. cbn. intros; lia.
    + rewrite Forall_map. eapply Forall_impl; [|exact (prefix_sums_nonneg t Ht)].
      cbn. intros; lia.
Qed.

End RunningTotals.

(** ** The aggregation store *)

Section Store.

Lemma numeric_counts (df : DataFrame) :
  numeric df = true -> map TAGVALUE df = map VInt (counts df).
Proof.
  induction df as [|r t IH]; cbn; [reflexivity|].
  destruct (TAGVALUE r) eqn:E; [|discriminate].
  intros H. cbn. rewrite IH by assumption. reflexivity.
Qed.

Lemma numeric_app (df1 df2 : DataFrame) :
  numeric (df1 ++ df2) = numeric df1 && numeric df2.
Proof. apply forallb_app. Qed.

Lemma counts_app (df1 df2 : DataFrame) : counts (df1 ++ df2) = counts df1 ++ counts df2.
Proof. apply map_app. Qed.

Lemma select_tag_app (tag : string) (df1 df2 : DataFrame) :
  Pandas.select_tag tag (df1 ++ df2)
  = Pandas.select_tag tag df1 ++ Pandas.select_tag tag df2.
Proof. apply filter_app. Qed.

Lemma select_tag_tagged (tag : string) (df : DataFrame) :
  Forall (fun r => TAGNAME r = tag) (Pandas.select_tag tag df).
Proof.
  apply Forall_forall. intros r Hr. apply filter_In in Hr as [_ Hr].
  apply String.eqb_eq. exact Hr.
Qed.

Lemma select_tag_all (tag : string) (df : DataFrame) :
  Forall (fun r => TAGNAME r = tag) df -> Pandas.select_tag tag df = df.
Proof.
  induction 1 as [|r t Hr Ht IH]; cbn; [reflexivity|].
  rewrite Hr, String.eqb_refl. f_equal. exact IH.
Qed.

Lemma select_tag_none (tag tag' : string) (df : DataFrame) :
  String.eqb tag tag' = false ->
  Forall (fun r => TAGNAME r = tag) df -> Pandas.select_tag tag' df = [].
Proof.
  intros Hne. induction 1 as [|r t Hr Ht IH]; cbn; [reflexivity|].
  rewrite Hr, Hne. exact IH.
Qed.

Lemma set_TAGVALUE_tagged (tag : string) (df : DataFrame) : forall column,
  Forall (fun r => TAGNAME r = tag) df ->
  Forall (fun r => TAGNAME r = tag) (Pandas.set_TAGVALUE df column).
Proof.
  unfold Pandas.set_TAGVALUE.
  induction df as [|r t IH]; intros [|v column] H; cbn; try constructor.
  - cbn. inversion H; assumption.
  - apply IH. inversion H; assumption.
Qed.

Lemma trace_set_TAGVALUE (df : DataFrame) : forall column,
  trace (Pandas.set_TAGVALUE df column) = combine (map TIMESTAMP df) column.
Proof.
  unfold trace, Pandas.set_TAGVALUE.
  induction df as [|r t IH]; intros [|v column]; cbn; try reflexivity.
  f_equal. apply IH.
Qed.

Lemma running_frame_tagged (tag : string) (log : DataFrame) :
  Forall (fun r => TAGNAME r = tag) (running_frame tag log).
Proof. apply set_TAGVALUE_tagged, select_tag_tagged. Qed.


Lemma running_frame_nil (tag : string) (log : DataFrame) :
  Pandas.select_tag tag log = [] -> running_frame tag log = [].
Proof. unfold running_frame. intros ->. reflexivity. Qed.

Lemma set_TAGVALUE_snoc (df : DataFrame) (r : Row) (v : value) : forall column,
  List.length column = List.length df ->
  Pandas.set_TAGVALUE (df ++ [r]) (column ++ [v])
  = Pandas.set_TAGVALUE df column ++ [mkRow (TAGNAME r) v (TIMESTAMP r)].
Proof.
  unfold Pandas.set_TAGVALUE.
  induction df as [|r0 t IH]; intros [|v0 column] Hlen; cbn in Hlen; try discriminate.
  - reflexivity.
  - cbn. f_equal. apply IH. lia.
Qed.

Lemma running_rows_snoc (df : DataFrame) (r : Row) :
  running_rows (df ++ [r])
  = running_rows df
    ++ [mkRow (TAGNAME r) (VInt (total (counts df) + count_of (TAGVALUE r))) (TIMESTAMP r)].
Proof.
  unfold running_rows. rewrite counts_app. cbn [counts map].
  rewrite prefix_sums_snoc, map_app. cbn [map].
  apply set_TAGVALUE_snoc.
  rewrite length_map, prefix_sums_length. unfold counts. apply length_map.
Qed.

Lemma trace_running_frame (tag : string) (log : DataFrame) :
  trace (running_frame tag log) = expected_view tag log.
Proof. apply trace_set_TAGVALUE. Qed.

Lemma select_running_4 (log : DataFrame) :
  Pandas.select_tag "tag-4" (running_frame "tag-4" log ++ running_frame "tag-5" log)
  = running_frame "tag-4" log.
Proof.
  rewrite select_tag_app.
  rewrite (select_tag_all "tag-4" (running_frame "tag-4" log)) by apply running_frame_tagged.
  rewrite (select_tag_none "tag-5" "tag-4" (running_frame "tag-5" log))
    by (reflexivity || apply running_frame_tagged).
  apply app_nil_r.
Qed.

Lemma select_running_5 (log : DataFrame) :
  Pandas.select_tag "tag-5" (running_frame "tag-4" log ++ running_frame "tag-5" log)
  = running_frame "tag-5" log.
Proof.
  rewrite select_tag_app.
  rewrite (select_tag_all "tag-5" (running_frame "tag-5" log)) by apply running_frame_tagged.
  rewrite (select_tag_none "tag-4" "tag-5" (running_frame "tag-4" log))
    by (reflexivity || apply running_frame_tagged).
  reflexivity.
Qed.

(** One turn of the loop over the tags, for a tag whose cells are
    counts. *)
Lemma cumulative_frames_step (log : DataFrame) (tag : string)
    (tags : list string) (acc : list DataFrame) :
  numeric (Pandas.select_tag tag log) = true ->
  cumulative_frames log (tag :: tags) acc
  = cumulative_frames log tags
      (acc ++ if Pandas.empty (Pandas.select_tag tag log) then []
              else [running_frame tag log]).
Proof.
  intros Hnum. cbn [cumulative_frames]. unfold running_frame, running_rows.
  destruct (Pandas.select_tag tag log) as [|r t] eqn:E; cbn [Pandas.empty negb].
  - rewrite app_nil_r. reflexivity.
  - rewrite (numeric_counts _ Hnum), cumsum_counts. reflexivity.
Qed.

(** What [update_cumulative_data] stores when the tag-4 and tag-5 cells
    are counts. *)
Lemma update_cumulative_data_spec (st : SessionState) :
  numeric (Pandas.select_tag "tag-4" (data st)) = true ->
  numeric (Pandas.select_tag "tag-5" (data st)) = true ->
  update_cumulative_data st
  = inl (if Pandas.empty (Pandas.select_tag "tag-4" (data st))
            && Pandas.empty (Pandas.select_tag "tag-5" (data st))
         then st
         else mkSession (streaming st) (data st) (start_time st)
                (running_frame "tag-4" (data st) ++ running_frame "tag-5" (data st))).
Proof.
  intros H4 H5. unfold update_cumulative_data.
  rewrite (cumulative_frames_step _ _ _ _ H4), (cumulative_frames_step _ _ _ _ H5).
  cbn [cumulative_frames bind ret app].
  destruct (Pandas.select_tag "tag-4" (data st)) as [|r4 t4] eqn:E4;
    destruct (Pandas.select_tag "tag-5" (data st)) as [|r5 t5] eqn:E5;
    cbn [Pandas.empty andb app Pandas.concat List.concat]; try reflexivity.
  - rewrite (running_frame_nil "tag-4") by assumption. rewrite app_nil_r. reflexivity.
  - rewrite (running_frame_nil "tag-5") by assumption. rewrite !app_nil_r. reflexivity.
  - rewrite app_nil_r. reflexivity.
Qed.

End Store.

(** ** The streaming controller and the invariant of the session state *)

Section Controller.
Import Float FloatFacts.

Lemma select_tag_concat2 (tag : string) (df1 df2 : DataFrame) :
  Pandas.select_tag tag (Pandas.concat [df1; df2])
  = Pandas.select_tag tag df1 ++ Pandas.select_tag tag df2.
Proof.
  unfold Pandas.concat. cbn [List.concat]. rewrite app_nil_r. apply select_tag_app.
Qed.

Lemma empty_snoc (df : DataFrame) (r : Row) : Pandas.empty (df ++ [r]) = false.
Proof. destruct df; reflexivity. Qed.

Lemma store_inv_initial (now : datetime) : store_inv (initial_state now).
Proof.
  unfold store_inv. cbn. repeat split; try constructor. lia.
Qed.

(** The invariant only reads the tag-4 and tag-5 samples and the stored
    view. *)
Lemma store_inv_ext (st st' : SessionState) :
  Pandas.select_tag "tag-4" (data st') = Pandas.select_tag "tag-4" (data st) ->
  Pandas.select_tag "tag-5" (data st') = Pandas.select_tag "tag-5" (data st) ->
  cumulative_data st' = cumulative_data st ->
  store_inv st -> store_inv st'.
Proof.
  unfold store_inv, running_frame. intros -> -> ->. exact (fun H => H).
Qed.

Lemma store_inv_button (batch_name : string) (now : datetime) (st : SessionState) :
  store_inv st -> store_inv (start_stop_button batch_name now st).
Proof.
  unfold start_stop_button.
  destruct (negb (streaming st)); apply store_inv_ext; cbn [data cumulative_data];
    rewrite ?select_tag_concat2; cbn [Pandas.select_tag filter TAGNAME];
    rewrite ?app_nil_r; reflexivity.
Qed.

(** Appending the rows of one interval and recomputing keeps the
    invariant. *)
Lemma store_inv_interval (st : SessionState) (d1 d2 d3 d4 d5 : Z) (timestamp : datetime) :
  store_inv st -> 0 <= d4 <= 3100 -> 100 <= d5 ->
  exists st2,
    update_cumulative_data
      (mkSession (streaming st)
         (Pandas.concat [data st; interval_rows d1 d2 d3 d4 d5 timestamp])
         (start_time st) (cumulative_data st)) = inl st2
    /\ store_inv st2
    /\ data st2 = Pandas.concat [data st; interval_rows d1 d2 d3 d4 d5 timestamp]
    /\ streaming st2 = streaming st.
Proof.
  intros (Hn4 & Hn5 & Hp4 & Hp5 & Hlen & Htot & Hcum) Hd4 Hd5.
  set (st1 := mkSession _ _ _ _).
  assert (E4 : Pandas.select_tag "tag-4" (data st1)
               = Pandas.select_tag "tag-4" (data st) ++ [mkRow "tag-4" (VInt d4) timestamp]).
  { unfold st1. cbn [data]. rewrite select_tag_concat2. reflexivity. }
  assert (E5 : Pandas.select_tag "tag-5" (data st1)
               = Pandas.select_tag "tag-5" (data st) ++ [mkRow "tag-5" (VInt d5) timestamp]).
  { unfold st1. cbn [data]. rewrite select_tag_concat2. reflexivity. }
  assert (Hn4' : numeric (Pandas.select_tag "tag-4" (data st1)) = true).
  { rewrite E4, numeric_app, Hn4. reflexivity. }
  assert (Hn5' : numeric (Pandas.select_tag "tag-5" (data st1)) = true).
  { rewrite E5, numeric_app, Hn5. reflexivity. }
  eexists. split; [|split; [|split]].
  - rewrite (update_cumulative_data_spec st1 Hn4' Hn5').
    rewrite E4, empty_snoc. cbn [andb]. reflexivity.
  - unfold store_inv. cbn [data cumulative_data].
    change (Pandas.concat [data st; interval_rows d1 d2 d3 d4 d5 timestamp]) with (data st1).
    rewrite E4, E5, !counts_app, !total_app, !length_app. cbn [counts map count_of TAGVALUE].
    repeat split.
    + rewrite <- E4. exact Hn4'.
    + rewrite <- E5. exact Hn5'.
    + apply Forall_app. split; [assumption|]. repeat constructor. lia.
    + apply Forall_app. split; [assumption|]. repeat constructor. lia.
    + cbn [List.length]. lia.
    + cbn [total fold_right]. lia.
  - reflexivity.
  - reflexivity.
Qed.

Lemma total_nonneg (zs : list Z) : Forall (fun z => 0 <= z) zs -> 0 <= total zs.
Proof. induction 1 as [|x t Hx Ht IH]; cbn; [lia|]. fold (total t). lia. Qed.

Lemma total_at_least (zs : list Z) :
  Forall (fun z => 100 <= z) zs -> zs <> [] -> 100 <= total zs.
Proof.
  intros H Hne. destruct H as [|x t Hx Ht]; [contradiction|].
  cbn. fold (total t).
  assert (0 <= total t).
  { apply total_nonneg. eapply Forall_impl; [|exact Ht]. cbn. intros; lia. }
  lia.
Qed.

(** The last running total of a tag is the total of its counts. *)
Lemma last_value_running_rows (tag : string) (df : DataFrame) :
  df <> [] ->
  Forall (fun r => TAGNAME r = tag) df ->
  Pandas.last_value tag (running_rows df) = inl (VInt (total (counts df))).
Proof.
  intros Hne Htag. unfold Pandas.last_value.
  rewrite select_tag_all by (apply set_TAGVALUE_tagged; assumption).
  destruct (exists_last Hne) as (l & r & ->).
  rewrite running_rows_snoc, rev_unit, counts_app, total_app.
  cbn. unfold ret. do 3 f_equal. lia.
Qed.

(** What the metrics block displays in a state that satisfies the
    invariant: nothing before the first interval, and afterwards the two
    totals with the rate computed from them, without any exception. *)
Lemma display_metrics_spec (name : string) (st : SessionState) :
  store_inv st ->
  (Pandas.select_tag "tag-5" (data st) = [] /\ display_metrics name st = inl None)
  \/
  (exists rate,
     Pandas.select_tag "tag-5" (data st) <> [] /\
     display_metrics name st
     = inl (Some (mkMetrics (total (counts (Pandas.select_tag "tag-5" (data st))))
                            (total (counts (Pandas.select_tag "tag-4" (data st))))
                            rate name)) /\
     100 <= total (counts (Pandas.select_tag "tag-5" (data st))) /\
     0 <= total (counts (Pandas.select_tag "tag-4" (data st))) /\
     (q <- int_truediv (total (counts (Pandas.select_tag "tag-4" (data st))))
                       (total (counts (Pandas.select_tag "tag-5" (data st)))) ;;
      mul_int q 100) = inl rate).
Proof.
  intros (Hn4 & Hn5 & Hp4 & Hp5 & Hlen & Htot & Hcum).
  unfold display_metrics. rewrite Hcum.
  destruct (Pandas.select_tag "tag-5" (data st)) as [|r5 t5] eqn:E5.
  - left. split; [reflexivity|].
    destruct (Pandas.select_tag "tag-4" (data st)) as [|r4 t4] eqn:E4; [|discriminate].
    rewrite !running_frame_nil by assumption. cbn [app Pandas.empty negb].
    rewrite andb_false_r. reflexivity.
  - right.
    assert (Hne5 : Pandas.select_tag "tag-5" (data st) <> []) by (rewrite E5; discriminate).
    assert (Hne4 : Pandas.select_tag "tag-4" (data st) <> []).
    { intros E4. rewrite E4 in Hlen. discriminate. }
    rewrite <- E5 in *. clear E5 r5 t5.
    pose proof (total_at_least _ Hp5 ltac:(unfold counts; intros E; apply map_eq_nil in E; auto)) as H5.
    pose proof (total_nonneg _ Hp4) as H4.
    assert (H5' : 0 < total (counts (Pandas.select_tag "tag-5" (data st)))) by lia.
    destruct (int_truediv_total _ _ H4 H5' Htot) as (q & Eq & _).
    exists (mul q (S754_finite false 7036874417766400 (-46))).
    assert (Hdata : Pandas.empty (data st) = false).
    { destruct (data st); [contradiction Hne5; reflexivity|reflexivity]. }
    assert (Hview : Pandas.empty (running_frame "tag-4" (data st)
                                  ++ running_frame "tag-5" (data st)) = false).
    { unfold running_frame at 2.
      destruct (exists_last Hne5) as (l & r & ->).
      rewrite running_rows_snoc, app_assoc. apply empty_snoc. }
    rewrite Hdata, Hview. cbn [negb andb].
    unfold Pandas.last_value. rewrite select_running_5, select_running_4.
    fold (Pandas.last_value "tag-5" (running_frame "tag-5" (data st))).
    pose proof (last_value_running_rows "tag-5" _ Hne5 (select_tag_tagged _ _)) as L5.
    pose proof (last_value_running_rows "tag-4" _ Hne4 (select_tag_tagged _ _)) as L4.
    unfold Pandas.last_value in L4, L5.
    rewrite !select_tag_all in L4, L5
      by (apply set_TAGVALUE_tagged, select_tag_tagged).
    unfold running_frame.
    destruct (rev (running_rows (Pandas.select_tag "tag-5" (data st)))) as [|x5 y5];
      [discriminate|].
    destruct (rev (running_rows (Pandas.select_tag "tag-4" (data st)))) as [|x4 y4];
      [discriminate|].
    injection L4 as ->. injection L5 as ->.
    cbn [bind ret Pandas.int Pandas.truediv].
    rewrite Eq. cbn [bind ret]. unfold mul_int. rewrite of_int_100. cbn [bind ret].
    repeat split; auto.
Qed.

Lemma noise_ok_inv (nz : Noise) :
  noise_ok nz = true ->
  -2 <= noise_1 nz <= 2 /\ -2 <= noise_2 nz <= 2 /\ -2 <= noise_3 nz <= 2.
Proof.
  unfold noise_ok, draw_ok. intros H.
  repeat (apply andb_prop in H as [H ?]).
  repeat match goal with
         | h : (_ <=? _) = true |- _ => apply Z.leb_le in h
         | h : (_ <? _) = true |- _ => apply Z.ltb_lt in h
         end.
  lia.
Qed.

(** One loop iteration from a state that satisfies the invariant: it
    raises nothing, appends the five rows of the interval, and keeps the
    invariant. *)
Lemma streaming_iteration_spec (cfg : Config) (nz : Noise) (now : datetime)
    (st : SessionState) :
  store_inv st -> config_ok cfg = true -> noise_ok nz = true ->
  exists st' shown d1 d2 d3,
    streaming_iteration cfg nz now st = inl (st', shown) /\
    store_inv st' /\
    data st' = Pandas.concat
                 [data st;
                  interval_rows d1 d2 d3 (d1 + d2 + d3) (inspections_per_interval cfg) now] /\
    0 <= d1 /\ 0 <= d2 /\ 0 <= d3 /\
    streaming st' = streaming st /\
    display_metrics (batch_name cfg) st' = inl shown.
Proof.
  intros Hinv Hcfg Hnz.
  destruct (generate_interval_data_shape cfg nz now Hcfg) as (b1 & b2 & b3 & Hb1 & Hb2 & Hb3 & Egen).
  apply noise_ok_inv in Hnz as (N1 & N2 & N3).
  apply config_ok_inv in Hcfg as (_ & _ & _ & Hn).
  set (d1 := Z.max 0 (b1 + noise_1 nz)) in *.
  set (d2 := Z.max 0 (b2 + noise_2 nz)) in *.
  set (d3 := Z.max 0 (b3 + noise_3 nz)) in *.
  destruct (store_inv_interval st d1 d2 d3 (d1 + d2 + d3)
              (inspections_per_interval cfg) now Hinv ltac:(lia) ltac:(lia))
    as (st2 & Eupd & Hinv2 & Hdata2 & Hstr2).
  assert (Hshown : exists shown, display_metrics (batch_name cfg) st2 = inl shown).
  { destruct (display_metrics_spec (batch_name cfg) st2 Hinv2)
      as [[_ E]|(rate & _ & E & _)]; eexists; exact E. }
  destruct Hshown as (shown & Eshown).
  exists st2, shown, d1, d2, d3.
  split.
  { unfold streaming_iteration. rewrite Egen. cbn [bind ret].
    rewrite Eupd. cbn [bind ret]. rewrite Eshown. reflexivity. }
  split; [exact Hinv2|].
  repeat split; try assumption; lia.
Qed.

(** Every state the script reaches satisfies the invariant. *)
Lemma reachable_store_inv (st : SessionState) : reachable st -> store_inv st.
Proof.
  induction 1 as [now|st name now Hreach IH|st st' cfg nz now shown Hreach IH Hrun Hcfg Hnz Hstep].
  - apply store_inv_initial.
  - apply store_inv_button. exact IH.
  - destruct (streaming_iteration_spec cfg nz now st IH Hcfg Hnz)
      as (st2 & shown2 & d1 & d2 & d3 & E & Hinv & _).
    rewrite E in Hstep. injection Hstep as -> _. exact Hinv.
Qed.

End Controller.

(** ** Properties of the sample generator *)

(** C1.  For every timestamp, every configuration inside the slider bounds
    (rates in [0, 5], inspections in [100, 1000]) and every outcome of the
    three noise draws, the generator returns five samples sharing the
    timestamp, in which the tag-4 value is the sum of the emitted tag-1,
    tag-2 and tag-3 values (after noise and clamping) and each of these
    three values is at least 0. *)
Theorem generate_interval_data_total_is_sum
    (cfg : Config) (nz : Noise) (timestamp : datetime) :
  config_ok cfg = true ->
  exists d1 d2 d3,
    generate_interval_data cfg nz timestamp
    = inl [ mkRow "tag-1" (VInt d1) timestamp;
            mkRow "tag-2" (VInt d2) timestamp;
            mkRow "tag-3" (VInt d3) timestamp;
            mkRow "tag-4" (VInt (d1 + d2 + d3)) timestamp;
            mkRow "tag-5" (VInt (inspections_per_interval cfg)) timestamp ]
    /\ 0 <= d1 /\ 0 <= d2 /\ 0 <= d3.
Proof.
  intros Hcfg.
  destruct (generate_interval_data_shape cfg nz timestamp Hcfg)
    as (b1 & b2 & b3 & _ & _ & _ & Egen).
  exists (Z.max 0 (b1 + noise_1 nz)), (Z.max 0 (b2 + noise_2 nz)),
         (Z.max 0 (b3 + noise_3 nz)).
  split; [exact Egen|]. lia.
Qed.

Lemma generate_interval_data_total_is_sum_witness :
  config_ok scenario_config = true /\
  exists d1 d2 d3,
    generate_interval_data scenario_config (mkNoise 1 (-2) 2) 20
    = inl [ mkRow "tag-1" (VInt d1) 20;
            mkRow "tag-2" (VInt d2) 20;
            mkRow "tag-3" (VInt d3) 20;
            mkRow "tag-4" (VInt (d1 + d2 + d3)) 20;
            mkRow "tag-5" (VInt (inspections_per_interval scenario_config)) 20 ]
    /\ 0 <= d1 /\ 0 <= d2 /\ 0 <= d3.
Proof.
  split; [reflexivity|].
  apply (generate_interval_data_total_is_sum scenario_config (mkNoise 1 (-2) 2) 20).
  reflexivity.
Defined.

(** C5.  With rates 1.0, 1.5 and 0.8, 500 inspections and the three noise
    draws fixed at 0, one invocation emits 5, 7 and 4 for tag-1, tag-2 and
    tag-3, 16 for tag-4 and 500 for tag-5; each base value is
    floor (500 * rate / 100). *)
Theorem scenario_interval (timestamp : datetime) :
  generate_interval_data scenario_config (mkNoise 0 0 0) timestamp
  = inl [ mkRow "tag-1" (VInt 5) timestamp;
          mkRow "tag-2" (VInt 7) timestamp;
          mkRow "tag-3" (VInt 4) timestamp;
          mkRow "tag-4" (VInt 16) timestamp;
          mkRow "tag-5" (VInt 500) timestamp ]
  /\ base_defects 500 (defect_rate_1 scenario_config) = inl (floor_base 500 1 1)
  /\ base_defects 500 (defect_rate_2 scenario_config) = inl (floor_base 500 15 10)
  /\ base_defects 500 (defect_rate_3 scenario_config) = inl (floor_base 500 8 10)
  /\ floor_base 500 1 1 = 5 /\ floor_base 500 15 10 = 7 /\ floor_base 500 8 10 = 4.
Proof.
  repeat split; vm_compute; reflexivity.
Qed.

(** C6.  For every configuration inside the slider bounds and every outcome
    of the noise draws, the tag-5 sample of an invocation carries exactly
    the configured inspections_per_interval: neither the noise nor the
    clamping touches it. *)
Theorem generate_interval_data_tag5
    (cfg : Config) (nz : Noise) (timestamp : datetime) :
  config_ok cfg = true ->
  exists rows,
    generate_interval_data cfg nz timestamp = inl rows /\
    Pandas.select_tag "tag-5" rows
    = [mkRow "tag-5" (VInt (inspections_per_interval cfg)) timestamp].
Proof.
  intros Hcfg.
  destruct (generate_interval_data_shape cfg nz timestamp Hcfg)
    as (b1 & b2 & b3 & _ & _ & _ & Egen).
  eexists. split; [exact Egen|reflexivity].
Qed.

Lemma generate_interval_data_tag5_witness :
  config_ok scenario_config = true /\
  exists rows,
    generate_interval_data scenario_config (mkNoise 2 2 (-2)) 30 = inl rows /\
    Pandas.select_tag "tag-5" rows = [mkRow "tag-5" (VInt 500) 30].
Proof.
  split; [reflexivity|].
  apply (generate_interval_data_tag5 scenario_config (mkNoise 2 2 (-2)) 30).
  reflexivity.
Defined.

(** ** Properties of the aggregation store *)

(** In every reachable state the stored view is empty as long as the log
    holds no tag-4 and no tag-5 sample. *)
Lemma reachable_view_fresh (st : SessionState) :
  reachable st ->
  Pandas.select_tag "tag-4" (data st) = [] ->
  Pandas.select_tag "tag-5" (data st) = [] ->
  cumulative_data st = [].
Proof.
  intros Hreach E4 E5.
  destruct (reachable_store_inv st Hreach) as (_ & _ & _ & _ & _ & _ & Hcum).
  rewrite Hcum, !running_frame_nil by assumption. reflexivity.
Qed.

(** C2.  For every sample log whose tag-4 and tag-5 cells are counts,
    recomputation succeeds and gives, for tag-4 and for tag-5, the
    timestamps of that tag's samples in log order, each paired with the
    prefix sum of the tag's values up to that position; for a tag without
    samples the sequence is empty and no error is raised.  (The stored view
    is taken to be empty while the log has no tag-4 and no tag-5 sample, as
    it is initially and in every reachable state.) *)
Theorem update_cumulative_data_prefix_sums (st : SessionState) :
  numeric (Pandas.select_tag "tag-4" (data st)) = true ->
  numeric (Pandas.select_tag "tag-5" (data st)) = true ->
  (Pandas.select_tag "tag-4" (data st) = [] ->
   Pandas.select_tag "tag-5" (data st) = [] -> cumulative_data st = []) ->
  exists st',
    update_cumulative_data st = inl st' /\
    data st' = data st /\
    cumulative_view "tag-4" st' = expected_view "tag-4" (data st) /\
    cumulative_view "tag-5" st' = expected_view "tag-5" (data st) /\
    (Pandas.select_tag "tag-4" (data st) = [] -> cumulative_view "tag-4" st' = []) /\
    (Pandas.select_tag "tag-5" (data st) = [] -> cumulative_view "tag-5" st' = []).
Proof.
  intros Hn4 Hn5 Hfresh.
  assert (Hnil : forall tag, Pandas.select_tag tag (data st) = [] ->
                             expected_view tag (data st) = []).
  { intros tag E. unfold expected_view. rewrite E. reflexivity. }
  rewrite (update_cumulative_data_spec st Hn4 Hn5).
  destruct (Pandas.empty (Pandas.select_tag "tag-4" (data st))
            && Pandas.empty (Pandas.select_tag "tag-5" (data st))) eqn:Eempty.
  - apply andb_prop in Eempty as [E4 E5].
    assert (E4' : Pandas.select_tag "tag-4" (data st) = [])
      by (destruct (Pandas.select_tag "tag-4" (data st)); [reflexivity|discriminate]).
    assert (E5' : Pandas.select_tag "tag-5" (data st) = [])
      by (destruct (Pandas.select_tag "tag-5" (data st)); [reflexivity|discriminate]).
    exists st. unfold cumulative_view. rewrite (Hfresh E4' E5'), !Hnil by assumption.
    repeat split; reflexivity.
  - eexists. split; [reflexivity|]. unfold cumulative_view. cbn [data cumulative_data].
    rewrite select_running_4, select_running_5, !trace_running_frame.
    repeat split; try reflexivity; apply Hnil.
Qed.

Lemma update_cumulative_data_prefix_sums_witness :
  exists st',
    update_cumulative_data defects_only_state = inl st' /\
    data st' = data defects_only_state /\
    cumulative_view "tag-4" st' = [(1, VInt 3); (3, VInt 7)] /\
    cumulative_view "tag-5" st' = [].
Proof.
  destruct (update_cumulative_data_prefix_sums defects_only_state)
    as (st' & E & Hdata & H4 & H5 & _).
  - reflexivity.
  - reflexivity.
  - intros _ _. reflexivity.
  - exists st'. repeat split; assumption.
Defined.

(** C9.  Recomputing twice with no append in between gives the result of
    recomputing once: the second call returns the state (log and view) the
    first call returned, and an error of the first call is the error of
    the pair. *)
Theorem update_cumulative_data_idempotent (st : SessionState) :
  (st' <- update_cumulative_data st ;; update_cumulative_data st')
  = update_cumulative_data st.
Proof.
  unfold update_cumulative_data.
  destruct (cumulative_frames (data st) ["tag-4"; "tag-5"] []) as [frames|e] eqn:E;
    cbn [bind ret]; [|reflexivity].
  destruct frames as [|f frames]; cbn [bind ret data]; rewrite E; reflexivity.
Qed.

(** C10.  When the log holds no tag-4 and no tag-5 sample (it is empty or
    holds batch markers only), [update_cumulative_data] returns the session
    state it was given: the stored view is neither cleared nor overwritten.
    In particular a view that was empty stays empty. *)
Theorem update_cumulative_data_no_totals (st : SessionState) :
  Pandas.select_tag "tag-4" (data st) = [] ->
  Pandas.select_tag "tag-5" (data st) = [] ->
  update_cumulative_data st = inl st /\
  (cumulative_data st = [] ->
   forall st', update_cumulative_data st = inl st' -> cumulative_data st' = []).
Proof.
  intros E4 E5.
  assert (E : update_cumulative_data st = inl st).
  { unfold update_cumulative_data, cumulative_frames. rewrite E4, E5. reflexivity. }
  split; [exact E|].
  intros Hnil st' E'. rewrite E in E'. injection E' as <-. exact Hnil.
Qed.

Lemma update_cumulative_data_no_totals_witness :
  update_cumulative_data marker_only_state = inl marker_only_state /\
  cumulative_data marker_only_state = [mkRow "tag-4" (VInt 16) 5].
Proof.
  split; [|reflexivity].
  apply (update_cumulative_data_no_totals marker_only_state); reflexivity.
Defined.

(** ** Properties of the streaming controller *)

Lemma scenario_run_reachable : reachable scenario_run.
Proof.
  assert (H1 : reachable scenario_step).
  { apply (reach_iteration scenario_state scenario_step scenario_config (mkNoise 0 0 0) 20
             (Some (mkMetrics 500 16 (S754_finite false 7205759403792794 (-51)) "Batch-1"))).
    - apply reach_button, reach_init.
    - reflexivity.
    - reflexivity.
    - reflexivity.
    - vm_compute. reflexivity. }
  apply (reach_iteration scenario_step scenario_run scenario_config (mkNoise 1 (-2) 2) 30
           (Some (mkMetrics 1000 33 (S754_finite false 7430939385161319 (-51)) "Batch-1"))).
  - exact H1.
  - reflexivity.
  - reflexivity.
  - reflexivity.
  - vm_compute. reflexivity.
Qed.

Lemma map_snd_combine_eq {A B : Type} (l : list A) : forall l' : list B,
  List.length l = List.length l' -> map snd (combine l l') = l'.
Proof.
  induction l as [|a l IH]; intros [|b l'] H; cbn in *; try discriminate; try reflexivity.
  f_equal. apply IH. lia.
Qed.

(** C7.  In every reachable session state, the cumulative view of tag-4 and
    of tag-5 is the recomputation of the log, its running totals are
    counts, and they never decrease along the sequence (every generated
    tag-4 and tag-5 value is at least 0). *)
Theorem cumulative_view_nondecreasing (st : SessionState) (tag : string) :
  reachable st ->
  tag = "tag-4" \/ tag = "tag-5" ->
  cumulative_view tag st = expected_view tag (data st) /\
  exists zs,
    map snd (cumulative_view tag st) = map VInt zs /\ StronglySorted Z.le zs.
Proof.
  intros Hreach Htag.
  destruct (reachable_store_inv st Hreach) as (_ & _ & Hp4 & Hp5 & _ & _ & Hcum).
  assert (Hview : cumulative_view tag st = expected_view tag (data st)).
  { unfold cumulative_view. rewrite Hcum.
    destruct Htag as [-> | ->];
      rewrite ?select_running_4, ?select_running_5; apply trace_running_frame. }
  split; [exact Hview|].
  exists (prefix_sums (counts (Pandas.select_tag tag (data st)))). split.
  - rewrite Hview. unfold expected_view. apply map_snd_combine_eq.
    rewrite !length_map, prefix_sums_length. unfold counts. rewrite length_map. reflexivity.
  - apply prefix_sums_sorted. destruct Htag as [-> | ->]; [exact Hp4|].
    eapply Forall_impl; [|exact Hp5]. cbn. intros; lia.
Qed.

Lemma cumulative_view_nondecreasing_witness :
  cumulative_view "tag-5" scenario_run = [(20, VInt 500); (30, VInt 1000)] /\
  exists zs,
    map snd (cumulative_view "tag-5" scenario_run) = map VInt zs /\
    StronglySorted Z.le zs.
Proof.
  destruct (cumulative_view_nondecreasing scenario_run "tag-5") as [_ H].
  - exact scenario_run_reachable.
  - right. reflexivity.
  - split; [reflexivity|exact H].
Defined.

(** C3 as stated fails: with no sample appended the metrics block shows
    nothing at all, so no total of 0 inspections is reported. *)
Lemma no_metrics_before_first_sample :
  ~ exists m,
      (display_metrics "Batch-1" (initial_state 0) = inl (Some m)
       \/ final_display "Batch-1" (initial_state 0) = inl (Some m))
      /\ total_inspected m = 0.
Proof.
  intros (m & [H | H] & _); vm_compute in H; discriminate.
Qed.

(** C3, amended.  In every reachable session state the metrics block
    raises no exception.  While the log holds no tag-5 sample it displays
    nothing (neither a total nor a rate).  Afterwards it displays the total
    of the tag-5 values, which is at least 100, the total of the tag-4
    values, and the rate (total_defects / total_inspected) * 100 evaluated
    in binary64, so that no division by zero occurs.  The block after the
    loop shows the same once streaming has stopped. *)
Theorem display_metrics_reachable (st : SessionState) (name : string) :
  reachable st ->
  (Pandas.select_tag "tag-5" (data st) = [] /\
   display_metrics name st = inl None /\
   final_display name st = inl None)
  \/
  (exists rate,
     let inspected := total (counts (Pandas.select_tag "tag-5" (data st))) in
     let defects := total (counts (Pandas.select_tag "tag-4" (data st))) in
     display_metrics name st = inl (Some (mkMetrics inspected defects rate name)) /\
     final_display name st
     = inl (if streaming st then None
            else Some (mkMetrics inspected defects rate name)) /\
     100 <= inspected /\ 0 <= defects /\
     (q <- Float.int_truediv defects inspected ;; Float.mul_int q 100) = inl rate).
Proof.
  intros Hreach.
  destruct (display_metrics_spec name st (reachable_store_inv st Hreach))
    as [[E5 Hnone]|(rate & Hne & Hsome & H5 & H4 & Hrate)].
  - left. repeat split; try assumption.
    unfold final_display. rewrite Hnone.
    destruct (negb (streaming st) && negb (Pandas.empty (data st))); reflexivity.
  - right. exists rate. cbv zeta. repeat split; try assumption.
    unfold final_display. rewrite Hsome.
    assert (Hdata : Pandas.empty (data st) = false).
    { destruct (data st); [contradiction Hne; reflexivity|reflexivity]. }
    rewrite Hdata. destruct (streaming st); reflexivity.
Qed.

Lemma display_metrics_reachable_witness :
  display_metrics "Batch-1" scenario_run
  = inl (Some (mkMetrics 1000 33 (S754_finite false 7430939385161319 (-51)) "Batch-1"))
  /\ ((Pandas.select_tag "tag-5" (data scenario_run) = [] /\
       display_metrics "Batch-1" scenario_run = inl None /\
       final_display "Batch-1" scenario_run = inl None)
      \/
      (exists rate,
         let inspected := total (counts (Pandas.select_tag "tag-5" (data scenario_run))) in
         let defects := total (counts (Pandas.select_tag "tag-4" (data scenario_run))) in
         display_metrics "Batch-1" scenario_run
         = inl (Some (mkMetrics inspected defects rate "Batch-1")) /\
         final_display "Batch-1" scenario_run
         = inl (if streaming scenario_run then None
                else Some (mkMetrics inspected defects rate "Batch-1")) /\
         100 <= inspected /\ 0 <= defects /\
         (q <- Float.int_truediv defects inspected ;; Float.mul_int q 100) = inl rate)).
Proof.
  split; [vm_compute; reflexivity|].
  apply (display_metrics_reachable scenario_run "Batch-1").
  exact scenario_run_reachable.
Defined.

(** ** The log as a sequence of markers and intervals *)

Lemma concat2 (df1 df2 : DataFrame) : Pandas.concat [df1; df2] = df1 ++ df2.
Proof. unfold Pandas.concat. cbn [List.concat]. rewrite app_nil_r. reflexivity. Qed.

Lemma select_marker_0 (name : string) (now : datetime) :
  Pandas.select_tag "tag-0" [mkRow "tag-0" (VStr name) now]
  = [mkRow "tag-0" (VStr name) now].
Proof. reflexivity. Qed.

Lemma select_interval_0 (d1 d2 d3 d4 d5 : Z) (now : datetime) :
  Pandas.select_tag "tag-0" (interval_rows d1 d2 d3 d4 d5 now) = [].
Proof. reflexivity. Qed.

Lemma select_interval_1 (d1 d2 d3 d4 d5 : Z) (now : datetime) :
  Pandas.select_tag "tag-1" (interval_rows d1 d2 d3 d4 d5 now)
  = [mkRow "tag-1" (VInt d1) now].
Proof. reflexivity. Qed.

Lemma select_interval_2 (d1 d2 d3 d4 d5 : Z) (now : datetime) :
  Pandas.select_tag "tag-2" (interval_rows d1 d2 d3 d4 d5 now)
  = [mkRow "tag-2" (VInt d2) now].
Proof. reflexivity. Qed.

Lemma select_interval_3 (d1 d2 d3 d4 d5 : Z) (now : datetime) :
  Pandas.select_tag "tag-3" (interval_rows d1 d2 d3 d4 d5 now)
  = [mkRow "tag-3" (VInt d3) now].
Proof. reflexivity. Qed.

Lemma select_interval_4 (d1 d2 d3 d4 d5 : Z) (now : datetime) :
  Pandas.select_tag "tag-4" (interval_rows d1 d2 d3 d4 d5 now)
  = [mkRow "tag-4" (VInt d4) now].
Proof. reflexivity. Qed.

Lemma select_interval_5 (d1 d2 d3 d4 d5 : Z) (now : datetime) :
  Pandas.select_tag "tag-5" (interval_rows d1 d2 d3 d4 d5 now)
  = [mkRow "tag-5" (VInt d5) now].
Proof. reflexivity. Qed.

(** A marker is invisible to the selection of any other tag. *)
Lemma select_marker_other (tag name : string) (now : datetime) :
  String.eqb "tag-0" tag = false ->
  Pandas.select_tag tag [mkRow "tag-0" (VStr name) now] = [].
Proof. intros H. unfold Pandas.select_tag. cbn [filter TAGNAME]. rewrite H. reflexivity. Qed.

(** [update_cumulative_data] writes the stored view only. *)
Lemma update_cumulative_data_frame (st st' : SessionState) :
  update_cumulative_data st = inl st' ->
  data st' = data st /\ streaming st' = streaming st /\ start_time st' = start_time st.
Proof.
  unfold update_cumulative_data.
  destruct (cumulative_frames (data st) ["tag-4"; "tag-5"] []) as [frames|e];
    cbn [bind ret]; [|discriminate].
  destruct frames; intros H; injection H as <-; auto.
Qed.

(** Whatever the configuration, a frame the generator returns has the five
    tags in order and the given timestamp in every row. *)
Lemma generate_interval_data_rows (cfg : Config) (nz : Noise)
    (timestamp : datetime) (rows : DataFrame) :
  generate_interval_data cfg nz timestamp = inl rows ->
  map TAGNAME rows = ["tag-1"; "tag-2"; "tag-3"; "tag-4"; "tag-5"] /\
  map TIMESTAMP rows = [timestamp; timestamp; timestamp; timestamp; timestamp].
Proof.
  unfold generate_interval_data.
  destruct (base_defects _ (defect_rate_1 cfg)); cbn [bind]; [|discriminate].
  destruct (base_defects _ (defect_rate_2 cfg)); cbn [bind]; [|discriminate].
  destruct (base_defects _ (defect_rate_3 cfg)); cbn [bind]; [|discriminate].
  intros H. injection H as <-. split; reflexivity.
Qed.

(** Every reachable log is made of markers and complete intervals, and it
    is not empty while the stream runs. *)
Lemma reachable_log_shape (st : SessionState) :
  reachable st ->
  log_shape (data st) /\ (streaming st = true -> data st <> []).
Proof.
  induction 1 as [now|st name now Hreach [IH Hne]
                 |st st' cfg nz now shown Hreach [IH Hne] Hrun Hcfg Hnz Hstep].
  - split; [constructor|discriminate].
  - unfold start_stop_button. destruct (negb (streaming st)) eqn:E; cbn [data streaming].
    + rewrite concat2. split; [constructor; exact IH|].
      intros _. destruct (data st); discriminate.
    + split; [exact IH|discriminate].
  - destruct (streaming_iteration_spec cfg nz now st (reachable_store_inv st Hreach) Hcfg Hnz)
      as (st2 & shown2 & d1 & d2 & d3 & E & _ & Hdata & H1 & H2 & H3 & _).
    rewrite E in Hstep. injection Hstep as -> _.
    apply config_ok_inv in Hcfg as (_ & _ & _ & Hn).
    rewrite Hdata, concat2. split.
    + constructor; auto.
    + intros _. destruct (data st); discriminate.
Qed.

Ltac select_norm :=
  rewrite ?select_tag_app;
  rewrite ?select_interval_0, ?select_interval_1, ?select_interval_2,
    ?select_interval_3, ?select_interval_4, ?select_interval_5, ?select_marker_0;
  rewrite ?select_marker_other by reflexivity;
  rewrite ?app_nil_r.

Lemma sum3_snoc (xs ys zs : list Z) (x y z : Z) :
  List.length xs = List.length ys -> List.length ys = List.length zs ->
  sum3 (xs ++ [x]) (ys ++ [y]) (zs ++ [z]) = sum3 xs ys zs ++ [x + y + z].
Proof.
  revert ys zs. induction xs as [|a xs IH]; intros [|b ys] [|c zs] H1 H2;
    cbn in H1, H2; try discriminate.
  - reflexivity.
  - cbn. f_equal. apply IH; lia.
Qed.

(** In a log of that shape the five series have one time axis. *)
Lemma log_shape_times (log : DataFrame) :
  log_shape log ->
  tag_times "tag-1" log = tag_times "tag-5" log /\
  tag_times "tag-2" log = tag_times "tag-5" log /\
  tag_times "tag-3" log = tag_times "tag-5" log /\
  tag_times "tag-4" log = tag_times "tag-5" log.
Proof.
  unfold tag_times.
  induction 1 as [|log name now Hs (I1 & I2 & I3 & I4)
                  |log d1 d2 d3 d5 now Hs (I1 & I2 & I3 & I4)];
    select_norm; rewrite ?map_app, ?I1, ?I2, ?I3, ?I4; repeat split; reflexivity.
Qed.

(** The cells of the five series are counts. *)
Lemma log_shape_numeric (log : DataFrame) (tag : string) :
  log_shape log ->
  In tag ["tag-1"; "tag-2"; "tag-3"; "tag-4"; "tag-5"] ->
  numeric (Pandas.select_tag tag log) = true.
Proof.
  intros Hs Htag.
  induction Hs as [|log name now Hs IH|log d1 d2 d3 d5 now Hs IH];
    [reflexivity| |];
    cbn in Htag; decompose [or] Htag; subst; try contradiction;
    select_norm; rewrite ?numeric_app, ?IH; reflexivity.
Qed.

(** The tag-4 series is, position by position, the sum of the tag-1,
    tag-2 and tag-3 series. *)
Lemma log_shape_sum (log : DataFrame) :
  log_shape log ->
  tag_counts "tag-4" log
  = sum3 (tag_counts "tag-1" log) (tag_counts "tag-2" log) (tag_counts "tag-3" log).
Proof.
  intros Hs.
  assert (Hlen : forall tag, List.length (tag_counts tag log) = List.length (tag_times tag log)).
  { intros tag. unfold tag_counts, tag_times, counts. rewrite !length_map. reflexivity. }
  destruct (log_shape_times log Hs) as (T1 & T2 & T3 & _).
  assert (L12 : List.length (tag_counts "tag-1" log) = List.length (tag_counts "tag-2" log))
    by (rewrite !Hlen, T1, T2; reflexivity).
  assert (L23 : List.length (tag_counts "tag-2" log) = List.length (tag_counts "tag-3" log))
    by (rewrite !Hlen, T2, T3; reflexivity).
  clear Hlen T1 T2 T3. unfold tag_counts in *.
  induction Hs as [|log name now Hs IH|log d1 d2 d3 d5 now Hs IH].
  - reflexivity.
  - revert L12 L23. select_norm. exact IH.
  - revert L12 L23. select_norm. rewrite !counts_app, !length_app. cbn [counts map count_of TAGVALUE List.length].
    intros L12 L23. rewrite sum3_snoc by lia. rewrite IH by lia. reflexivity.
Qed.

(** The log holds its markers and five rows per interval. *)
Lemma log_shape_length (log : DataFrame) :
  log_shape log ->
  List.length log
  = (List.length (Pandas.select_tag "tag-0" log)
     + 5 * List.length (Pandas.select_tag "tag-5" log))%nat.
Proof.
  induction 1 as [|log name now Hs IH|log d1 d2 d3 d5 now Hs IH Hne];
    [reflexivity| |]; select_norm; rewrite !length_app, IH; cbn [List.length interval_rows]; lia.
Qed.

Lemma log_shape_samples (log : DataFrame) :
  log_shape log -> Forall sample_ok log.
Proof.
  induction 1 as [|log name now Hs IH|log d1 d2 d3 d5 now Hs IH Hne H1 H2 H3 H5].
  - constructor.
  - apply Forall_app. split; [exact IH|].
    apply Forall_cons; [|constructor]. left. cbn. eauto.
  - apply Forall_app. split; [exact IH|]. unfold interval_rows.
    repeat (apply Forall_cons;
            [right; cbn [TAGNAME TAGVALUE]; split;
             [cbn; tauto|eexists; split; [reflexivity|lia]]|]).
    constructor.
Qed.

Lemma log_shape_inspections (log : DataFrame) :
  log_shape log -> Forall (fun n => 100 <= n <= 1000) (tag_counts "tag-5" log).
Proof.
  unfold tag_counts.
  induction 1 as [|log name now Hs IH|log d1 d2 d3 d5 now Hs IH Hne H1 H2 H3 H5];
    [constructor| |]; select_norm; [exact IH|].
  rewrite counts_app. apply Forall_app. split; [exact IH|]. repeat constructor; cbn; lia.
Qed.

(** A non-empty log of that shape starts with a batch marker. *)
Lemma log_shape_head (log : DataFrame) :
  log_shape log -> log <> [] ->
  exists name now rest, log = mkRow "tag-0" (VStr name) now :: rest.
Proof.
  induction 1 as [|log name now Hs IH|log d1 d2 d3 d5 now Hs IH Hne]; intros Hnil.
  - contradiction.
  - destruct log as [|r log'].
    + exists name, now, []. reflexivity.
    + destruct IH as (name0 & now0 & rest & E); [discriminate|].
      rewrite E. cbn. eauto.
  - destruct (IH Hne) as (name0 & now0 & rest & E). rewrite E. cbn. eauto.
Qed.


(** ** Iterations, the loop and whole runs *)

(** What an iteration that returns has done, whatever the configuration. *)
Lemma streaming_iteration_inv (cfg : Config) (nz : Noise) (now : datetime)
    (st st' : SessionState) (shown : option Metrics) :
  streaming_iteration cfg nz now st = inl (st', shown) ->
  exists rows,
    generate_interval_data cfg nz now = inl rows /\
    data st' = data st ++ rows /\
    streaming st' = streaming st /\
    start_time st' = start_time st /\
    display_metrics (batch_name cfg) st' = inl shown.
Proof.
  unfold streaming_iteration.
  destruct (generate_interval_data cfg nz now) as [rows|e]; cbn [bind]; [|discriminate].
  destruct (update_cumulative_data _) as [st2|e] eqn:Eupd; cbn [bind]; [|discriminate].
  apply update_cumulative_data_frame in Eupd as (Hd & Hs & Ht). cbn [data streaming start_time] in *.
  destruct (display_metrics (batch_name cfg) st2) as [m|e] eqn:Edisp; cbn [bind ret]; [|discriminate].
  intros H. injection H as <- <-.
  exists rows. rewrite Hd, concat2. auto.
Qed.

(** In a state that satisfies the invariant, recomputing the view changes
    nothing. *)
Lemma store_inv_update (st : SessionState) :
  store_inv st -> update_cumulative_data st = inl st.
Proof.
  intros (Hn4 & Hn5 & _ & _ & _ & _ & Hcum).
  rewrite (update_cumulative_data_spec st Hn4 Hn5), <- Hcum.
  destruct st. destruct (_ && _); reflexivity.
Qed.

(** An iteration from a state that satisfies the invariant displays a
    metrics record whose totals are the old totals plus the new interval. *)
Lemma streaming_iteration_metrics (cfg : Config) (nz : Noise) (now : datetime)
    (st : SessionState) :
  store_inv st -> config_ok cfg = true -> noise_ok nz = true ->
  exists st' m d1 d2 d3,
    streaming_iteration cfg nz now st = inl (st', Some m) /\
    data st' = data st
               ++ interval_rows d1 d2 d3 (d1 + d2 + d3) (inspections_per_interval cfg) now /\
    total_inspected m
    = total (tag_counts "tag-5" (data st)) + inspections_per_interval cfg /\
    total_defects m = total (tag_counts "tag-4" (data st)) + (d1 + d2 + d3) /\
    batch m = batch_name cfg.
Proof.
  intros Hinv Hcfg Hnz.
  destruct (streaming_iteration_spec cfg nz now st Hinv Hcfg Hnz)
    as (st' & shown & d1 & d2 & d3 & E & Hinv' & Hdata & _ & _ & _ & _ & Hshown).
  rewrite concat2 in Hdata.
  assert (E5 : Pandas.select_tag "tag-5" (data st')
               = Pandas.select_tag "tag-5" (data st)
                 ++ [mkRow "tag-5" (VInt (inspections_per_interval cfg)) now]).
  { rewrite Hdata. select_norm. reflexivity. }
  assert (E4 : Pandas.select_tag "tag-4" (data st')
               = Pandas.select_tag "tag-4" (data st)
                 ++ [mkRow "tag-4" (VInt (d1 + d2 + d3)) now]).
  { rewrite Hdata. select_norm. reflexivity. }
  destruct (display_metrics_spec (batch_name cfg) st' Hinv')
    as [[Enil _]|(rate & _ & Esome & _)].
  - rewrite E5 in Enil. destruct (Pandas.select_tag "tag-5" (data st)); discriminate.
  - rewrite Esome in Hshown. injection Hshown as <-.
    eexists st', _, d1, d2, d3. split; [exact E|]. split; [exact Hdata|].
    cbn [total_inspected total_defects batch]. unfold tag_counts.
    rewrite E4, E5, !counts_app, !total_app. cbn. repeat split; lia.
Qed.

(** The loop entered in a reachable, streaming state never leaves by
    itself: after as many iterations as there are readings it is still
    streaming, it has raised nothing, and every iteration has appended one
    interval and displayed a metrics record. *)
Lemma streaming_loop_spec (cfg : Config) (env : list (Noise * datetime)) :
  config_ok cfg = true ->
  Forall (fun p => noise_ok (fst p) = true) env ->
  forall st,
    reachable st -> streaming st = true ->
    exists st' shown,
      streaming_loop cfg env st = inl (Interrupted, st', shown) /\
      reachable st' /\
      streaming st' = true /\
      start_time st' = start_time st /\
      List.length shown = List.length env /\
      Forall (fun m => m <> None) shown /\
      tag_times "tag-5" (data st') = tag_times "tag-5" (data st) ++ map snd env /\
      tag_counts "tag-5" (data st')
      = tag_counts "tag-5" (data st)
        ++ repeat (inspections_per_interval cfg) (List.length env) /\
      Pandas.select_tag "tag-0" (data st') = Pandas.select_tag "tag-0" (data st).
Proof.
  intros Hcfg Henv. induction Henv as [|[nz now] env Hnz Henv IH]; intros st Hreach Hrun.
  - exists st, []. cbn. rewrite Hrun, !app_nil_r. repeat split; auto.
  - cbn [fst] in Hnz.
    destruct (streaming_iteration_metrics cfg nz now st (reachable_store_inv st Hreach) Hcfg Hnz)
      as (st1 & m & d1 & d2 & d3 & E & Hdata & _).
    destruct (streaming_iteration_inv _ _ _ _ _ _ E) as (_ & _ & _ & Hrun1 & Hst1 & _).
    assert (Hreach1 : reachable st1)
      by (eapply reach_iteration; eauto).
    destruct (IH st1 Hreach1 ltac:(congruence))
      as (st' & shown & Eloop & Hreach' & Hrun' & Hst' & Hlen & Hall & Ht & Hc & H0).
    exists st', (Some m :: shown).
    cbn [streaming_loop]. rewrite Hrun, E. cbn [bind ret fst snd]. rewrite Eloop.
    cbn [bind ret fst snd List.length map repeat].
    repeat split; auto; try congruence.
    + constructor; [discriminate|exact Hall].
    + rewrite Ht. unfold tag_times. rewrite Hdata. select_norm.
      rewrite map_app, <- app_assoc. reflexivity.
    + rewrite Hc. unfold tag_counts. rewrite Hdata. select_norm.
      rewrite counts_app, <- app_assoc. reflexivity.
    + rewrite H0, Hdata. select_norm. reflexivity.
Qed.


(** ** Signs in the generator's arithmetic *)

Lemma binary_round_aux_signed (s : bool) (m e : Z) (l : location) :
  signed_float s (binary_round_aux Float.prec Float.emax s m e l).
Proof.
  unfold binary_round_aux.
  destruct (shr_fexp Float.prec Float.emax m e l) as [mrs1 e1].
  destruct (shr_fexp Float.prec Float.emax _ e1 loc_Exact) as [mrs2 e2].
  destruct (shr_m mrs2); [exact I| |exact I].
  destruct (e2 <=? Float.emax - Float.prec); [reflexivity|exact I].
Qed.

Lemma mul_signed (sx sy : bool) (x y : Float.float) :
  signed_float sx x -> signed_float sy y ->
  signed_float (xorb sx sy) (Float.mul x y).
Proof.
  destruct x as [a|a| |a mx ex], y as [b|b| |b my ey]; cbn; auto.
  intros -> ->. apply binary_round_aux_signed.
Qed.

Lemma div_signed (sx sy : bool) (x y : Float.float) :
  signed_float sx x -> signed_float sy y ->
  signed_float (xorb sx sy) (Float.div x y).
Proof.
  destruct x as [a|a| |a mx ex], y as [b|b| |b my ey]; cbn; auto.
  intros -> ->.
  destruct (SFdiv_core_binary Float.prec Float.emax (Z.pos mx) ex (Z.pos my) ey) as [[q e] l].
  apply binary_round_aux_signed.
Qed.

Lemma of_int_signed (n : Z) (x : Float.float) :
  0 <= n -> Float.of_int n = inl x -> signed_float false x.
Proof.
  intros Hn. unfold Float.of_int, Float.of_Z, binary_normalize.
  destruct n as [|p|p]; [| |lia].
  - intros H. injection H as <-. exact I.
  - unfold binary_round.
    destruct (shl_align p 0 _) as [mz ez].
    pose proof (binary_round_aux_signed false (Z.pos mz) ez loc_Exact) as Hs.
    destruct (binary_round_aux Float.prec Float.emax false (Z.pos mz) ez loc_Exact);
      intros H; try discriminate; injection H as <-; exact Hs.
Qed.

Lemma rate_signed (r : Float.float) : rate_in_range r = true -> signed_float false r.
Proof.
  unfold rate_in_range. intros H.
  apply andb_prop in H as [H _]. apply andb_prop in H as [_ H].
  destruct r as [s|s| |s m e]; cbn; auto. destruct s; [discriminate|reflexivity].
Qed.

Lemma to_int_signed (x : Float.float) (z : Z) :
  signed_float false x -> Float.to_int x = inl z -> 0 <= z.
Proof.
  destruct x as [s|s| |s m e]; cbn; intros Hs H; try discriminate.
  - injection H as <-. lia.
  - subst s. injection H as <-. cbn [cond_Zopp]. apply Z.shiftl_nonneg. lia.
Qed.

(** With a non-negative rate and a non-negative inspection count the base
    count is not negative. *)
Lemma base_defects_nonneg (n : Z) (r : Float.float) (z : Z) :
  0 <= n -> rate_in_range r = true -> base_defects n r = inl z -> 0 <= z.
Proof.
  intros Hn Hr. unfold base_defects, Float.div_int, Float.int_mul.
  change (100 =? 0) with false. cbv iota. rewrite FloatFacts.of_int_100. cbn [bind ret].
  destruct (Float.of_int n) as [fn|e] eqn:Efn; cbn [bind ret]; [|discriminate].
  apply to_int_signed.
  change false with (xorb false (xorb false false)).
  apply mul_signed; [exact (of_int_signed n fn Hn Efn)|].
  apply div_signed; [exact (rate_signed r Hr)|reflexivity].
Qed.

(** ** Further properties of the generator *)

(** X1.  With the sliders in range and draws in [-2, 2], each base count
    int(inspections * (rate / 100)) is defined and lies in [0, 1024), and
    each emitted defect count is max(0, base + noise): it stays within 2 of
    its base count, and the clamp acts only when the noise is negative. *)
Theorem generate_interval_data_near_base
    (cfg : Config) (nz : Noise) (timestamp : datetime) :
  config_ok cfg = true -> noise_ok nz = true ->
  exists b1 b2 b3 d1 d2 d3,
    base_defects (inspections_per_interval cfg) (defect_rate_1 cfg) = inl b1 /\
    base_defects (inspections_per_interval cfg) (defect_rate_2 cfg) = inl b2 /\
    base_defects (inspections_per_interval cfg) (defect_rate_3 cfg) = inl b3 /\
    generate_interval_data cfg nz timestamp
    = inl (interval_rows d1 d2 d3 (d1 + d2 + d3) (inspections_per_interval cfg) timestamp) /\
    (0 <= b1 < 1024 /\ 0 <= b2 < 1024 /\ 0 <= b3 < 1024) /\
    (d1 = Z.max 0 (b1 + noise_1 nz) /\ d2 = Z.max 0 (b2 + noise_2 nz) /\
     d3 = Z.max 0 (b3 + noise_3 nz)) /\
    (b1 - 2 <= d1 <= b1 + 2 /\ b2 - 2 <= d2 <= b2 + 2 /\ b3 - 2 <= d3 <= b3 + 2) /\
    (0 <= noise_1 nz -> d1 = b1 + noise_1 nz) /\
    (0 <= noise_2 nz -> d2 = b2 + noise_2 nz) /\
    (0 <= noise_3 nz -> d3 = b3 + noise_3 nz).
Proof.
  intros Hcfg Hnz.
  apply config_ok_inv in Hcfg as (H1 & H2 & H3 & Hn).
  apply noise_ok_inv in Hnz as (N1 & N2 & N3).
  destruct (base_defects_total _ _ Hn H1) as (b1 & E1 & Hb1).
  destruct (base_defects_total _ _ Hn H2) as (b2 & E2 & Hb2).
  destruct (base_defects_total _ _ Hn H3) as (b3 & E3 & Hb3).
  assert (Hn0 : 0 <= inspections_per_interval cfg) by lia.
  pose proof (base_defects_nonneg _ _ _ Hn0 H1 E1) as P1.
  pose proof (base_defects_nonneg _ _ _ Hn0 H2 E2) as P2.
  pose proof (base_defects_nonneg _ _ _ Hn0 H3 E3) as P3.
  exists b1, b2, b3, (Z.max 0 (b1 + noise_1 nz)), (Z.max 0 (b2 + noise_2 nz)),
         (Z.max 0 (b3 + noise_3 nz)).
  split; [exact E1|]. split; [exact E2|]. split; [exact E3|].
  split; [unfold generate_interval_data; rewrite E1, E2, E3; reflexivity|].
  repeat split; lia.
Qed.

Lemma generate_interval_data_near_base_witness :
  exists b1 b2 b3 d1 d2 d3,
    base_defects 500 (defect_rate_1 scenario_config) = inl b1 /\
    base_defects 500 (defect_rate_2 scenario_config) = inl b2 /\
    base_defects 500 (defect_rate_3 scenario_config) = inl b3 /\
    generate_interval_data scenario_config (mkNoise 1 (-2) 2) 30
    = inl (interval_rows d1 d2 d3 (d1 + d2 + d3) 500 30) /\
    (0 <= b1 < 1024 /\ 0 <= b2 < 1024 /\ 0 <= b3 < 1024) /\
    (d1 = Z.max 0 (b1 + 1) /\ d2 = Z.max 0 (b2 + -2) /\ d3 = Z.max 0 (b3 + 2)) /\
    (b1 - 2 <= d1 <= b1 + 2 /\ b2 - 2 <= d2 <= b2 + 2 /\ b3 - 2 <= d3 <= b3 + 2) /\
    (0 <= 1 -> d1 = b1 + 1) /\
    (0 <= -2 -> d2 = b2 + -2) /\
    (0 <= 2 -> d3 = b3 + 2).
Proof.
  apply (generate_interval_data_near_base scenario_config (mkNoise 1 (-2) 2) 30);
    reflexivity.
Defined.

(** ** Further properties of the session state *)

(** X2.  For every session state, two presses of the Start/Stop button in
    a row bring the streaming flag back to what it was and append exactly
    one batch marker, written by the press that started the stream; the
    stored view is untouched. *)
Theorem start_stop_button_twice (st : SessionState)
    (name1 name2 : string) (now1 now2 : datetime) :
  let st2 := start_stop_button name2 now2 (start_stop_button name1 now1 st) in
  streaming st2 = streaming st /\
  cumulative_data st2 = cumulative_data st /\
  data st2 = data st ++ [ if streaming st then mkRow "tag-0" (VStr name2) now2
                          else mkRow "tag-0" (VStr name1) now1 ] /\
  start_time st2 = (if streaming st then now2 else now1).
Proof.
  unfold start_stop_button. destruct (streaming st); cbn; rewrite ?app_nil_r; auto.
Qed.

(** X3.  Every reachable log is a sequence of batch markers and complete
    five-row intervals: it has its markers plus five rows per interval,
    it starts with a marker when it is not empty, and it is not empty
    while the stream runs. *)
Theorem reachable_log_structure (st : SessionState) :
  reachable st ->
  log_shape (data st) /\
  List.length (data st)
  = (List.length (Pandas.select_tag "tag-0" (data st))
     + 5 * List.length (Pandas.select_tag "tag-5" (data st)))%nat /\
  (data st <> [] ->
   exists name now rest, data st = mkRow "tag-0" (VStr name) now :: rest) /\
  (streaming st = true -> data st <> []).
Proof.
  intros Hreach. destruct (reachable_log_shape st Hreach) as [Hs Hne].
  split; [exact Hs|]. split; [exact (log_shape_length _ Hs)|].
  split; [exact (log_shape_head _ Hs)|exact Hne].
Qed.

Lemma reachable_log_structure_witness :
  List.length (data scenario_run) = 11%nat /\
  log_shape (data scenario_run) /\
  List.length (data scenario_run)
  = (List.length (Pandas.select_tag "tag-0" (data scenario_run))
     + 5 * List.length (Pandas.select_tag "tag-5" (data scenario_run)))%nat /\
  (data scenario_run <> [] ->
   exists name now rest, data scenario_run = mkRow "tag-0" (VStr name) now :: rest) /\
  (streaming scenario_run = true -> data scenario_run <> []).
Proof.
  split; [reflexivity|].
  apply (reachable_log_structure scenario_run). exact scenario_run_reachable.
Defined.

(** X4.  In every reachable log the five series share one time axis (the
    i-th samples of tag-1 .. tag-5 carry the same timestamp), and the
    tag-4 series is, interval by interval, the sum of the tag-1, tag-2 and
    tag-3 series. *)
Theorem reachable_series_aligned (st : SessionState) :
  reachable st ->
  (tag_times "tag-1" (data st) = tag_times "tag-5" (data st) /\
   tag_times "tag-2" (data st) = tag_times "tag-5" (data st) /\
   tag_times "tag-3" (data st) = tag_times "tag-5" (data st) /\
   tag_times "tag-4" (data st) = tag_times "tag-5" (data st)) /\
  tag_counts "tag-4" (data st)
  = sum3 (tag_counts "tag-1" (data st)) (tag_counts "tag-2" (data st))
         (tag_counts "tag-3" (data st)).
Proof.
  intros Hreach. destruct (reachable_log_shape st Hreach) as [Hs _].
  split; [exact (log_shape_times _ Hs)|exact (log_shape_sum _ Hs)].
Qed.

Lemma reachable_series_aligned_witness :
  tag_times "tag-5" (data scenario_run) = [20; 30] /\
  tag_counts "tag-4" (data scenario_run) = [16; 17] /\
  (tag_times "tag-1" (data scenario_run) = tag_times "tag-5" (data scenario_run) /\
   tag_times "tag-2" (data scenario_run) = tag_times "tag-5" (data scenario_run) /\
   tag_times "tag-3" (data scenario_run) = tag_times "tag-5" (data scenario_run) /\
   tag_times "tag-4" (data scenario_run) = tag_times "tag-5" (data scenario_run)) /\
  tag_counts "tag-4" (data scenario_run)
  = sum3 (tag_counts "tag-1" (data scenario_run)) (tag_counts "tag-2" (data scenario_run))
         (tag_counts "tag-3" (data scenario_run)).
Proof.
  split; [reflexivity|]. split; [reflexivity|].
  apply (reachable_series_aligned scenario_run). exact scenario_run_reachable.
Defined.

(** X5.  In every reachable log each row is either a tag-0 marker holding
    a label or a row of tag-1 .. tag-5 holding a count that is not
    negative, and every tag-5 count lies in the slider range
    [100, 1000]. *)
Theorem reachable_samples_typed (st : SessionState) :
  reachable st ->
  Forall sample_ok (data st) /\
  Forall (fun n => 100 <= n <= 1000) (tag_counts "tag-5" (data st)).
Proof.
  intros Hreach. destruct (reachable_log_shape st Hreach) as [Hs _].
  split; [exact (log_shape_samples _ Hs)|exact (log_shape_inspections _ Hs)].
Qed.

Lemma reachable_samples_typed_witness :
  tag_counts "tag-5" (data scenario_run) = [500; 500] /\
  Forall sample_ok (data scenario_run) /\
  Forall (fun n => 100 <= n <= 1000) (tag_counts "tag-5" (data scenario_run)).
Proof.
  split; [reflexivity|].
  apply (reachable_samples_typed scenario_run). exact scenario_run_reachable.
Defined.

(** X6.  In every reachable state the recorded start time is the timestamp
    of the latest batch marker in the log, and a running stream has at
    least one marker. *)
Theorem start_time_is_latest_marker (st : SessionState) :
  reachable st ->
  (forall markers r,
     Pandas.select_tag "tag-0" (data st) = markers ++ [r] ->
     start_time st = TIMESTAMP r) /\
  (streaming st = true -> Pandas.select_tag "tag-0" (data st) <> []).
Proof.
  induction 1 as [now|st name now Hreach [IH Hone]
                 |st st' cfg nz now shown Hreach [IH Hone] Hrun Hcfg Hnz Hstep].
  - split; [|discriminate]. intros markers r H. cbn in H.
    destruct markers; discriminate.
  - unfold start_stop_button.
    destruct (negb (streaming st)) eqn:E; cbn [data streaming start_time].
    + rewrite concat2. select_norm. split.
      * intros markers r H. apply app_inj_tail in H as [_ <-]. reflexivity.
      * intros _ H. destruct (Pandas.select_tag "tag-0" (data st)); discriminate.
    + split; [exact IH|discriminate].
  - destruct (streaming_iteration_spec cfg nz now st (reachable_store_inv st Hreach) Hcfg Hnz)
      as (st2 & shown2 & d1 & d2 & d3 & E & _ & Hdata & _).
    destruct (streaming_iteration_inv _ _ _ _ _ _ Hstep) as (_ & _ & _ & Hs & Ht & _).
    rewrite E in Hstep. injection Hstep as -> _.
    rewrite Hdata, concat2, Hs, Ht. select_norm. split; [exact IH|exact Hone].
Qed.

Lemma start_time_is_latest_marker_witness :
  start_time scenario_run = 10 /\
  (forall markers r,
     Pandas.select_tag "tag-0" (data scenario_run) = markers ++ [r] ->
     start_time scenario_run = TIMESTAMP r) /\
  (streaming scenario_run = true ->
   Pandas.select_tag "tag-0" (data scenario_run) <> []).
Proof.
  split; [reflexivity|].
  apply (start_time_is_latest_marker scenario_run). exact scenario_run_reachable.
Defined.

(** X7.  In every reachable state the stored cumulative view is up to
    date: calling [update_cumulative_data] again returns the very same
    session state (also right after a batch marker was appended). *)
Theorem reachable_view_up_to_date (st : SessionState) :
  reachable st -> update_cumulative_data st = inl st.
Proof.
  intros Hreach. apply store_inv_update, reachable_store_inv, Hreach.
Qed.

Lemma reachable_view_up_to_date_witness :
  cumulative_data scenario_run
  = [ mkRow "tag-4" (VInt 16) 20; mkRow "tag-4" (VInt 33) 30;
      mkRow "tag-5" (VInt 500) 20; mkRow "tag-5" (VInt 1000) 30 ] /\
  update_cumulative_data scenario_run = inl scenario_run.
Proof.
  split; [reflexivity|].
  apply (reachable_view_up_to_date scenario_run). exact scenario_run_reachable.
Defined.

Lemma select_tag_absent (tag : string) (rows : DataFrame) :
  ~ In tag (map TAGNAME rows) -> Pandas.select_tag tag rows = [].
Proof.
  induction rows as [|r rows IH]; cbn; [reflexivity|]. intros H.
  destruct (String.eqb_spec (TAGNAME r) tag) as [E|_]; [exfalso; auto|].
  apply IH. tauto.
Qed.

(** X8.  Whatever the configuration and the state, a loop iteration that
    returns has appended exactly five rows after the old log, tagged tag-1
    to tag-5 in that order and all stamped with the iteration's clock
    reading; it has left the streaming flag, the start time and the batch
    markers as they were. *)
Theorem streaming_iteration_appends_interval (cfg : Config) (nz : Noise)
    (now : datetime) (st st' : SessionState) (shown : option Metrics) :
  streaming_iteration cfg nz now st = inl (st', shown) ->
  exists rows,
    data st' = data st ++ rows /\
    map TAGNAME rows = ["tag-1"; "tag-2"; "tag-3"; "tag-4"; "tag-5"] /\
    map TIMESTAMP rows = [now; now; now; now; now] /\
    streaming st' = streaming st /\
    start_time st' = start_time st /\
    Pandas.select_tag "tag-0" (data st') = Pandas.select_tag "tag-0" (data st).
Proof.
  intros H.
  destruct (streaming_iteration_inv _ _ _ _ _ _ H) as (rows & Egen & Hdata & Hs & Ht & _).
  destruct (generate_interval_data_rows _ _ _ _ Egen) as [Hnames Htimes].
  exists rows. repeat split; try assumption.
  rewrite Hdata, select_tag_app, (select_tag_absent "tag-0" rows), app_nil_r;
    [reflexivity|].
  rewrite Hnames. cbn. intros Hin. decompose [or] Hin; discriminate || contradiction.
Qed.

Lemma streaming_iteration_appends_interval_witness :
  exists rows,
    data scenario_step = data scenario_state ++ rows /\
    map TAGNAME rows = ["tag-1"; "tag-2"; "tag-3"; "tag-4"; "tag-5"] /\
    map TIMESTAMP rows = [20; 20; 20; 20; 20] /\
    streaming scenario_step = streaming scenario_state /\
    start_time scenario_step = start_time scenario_state /\
    Pandas.select_tag "tag-0" (data scenario_step)
    = Pandas.select_tag "tag-0" (data scenario_state).
Proof.
  apply (streaming_iteration_appends_interval scenario_config (mkNoise 0 0 0) 20
           scenario_state scenario_step
           (Some (mkMetrics 500 16 (S754_finite false 7205759403792794 (-51)) "Batch-1"))).
  vm_compute. reflexivity.
Defined.

(** X9.  An iteration run in a reachable state with the sliders in range
    raises nothing and always displays a metrics record: total inspected
    is the previous total plus inspections_per_interval, total defects is
    the previous total plus the three new defect counts, and the batch is
    the current batch name.  The running totals are thus carried across
    batch markers, never reset. *)
Theorem streaming_iteration_shows_totals (cfg : Config) (nz : Noise)
    (now : datetime) (st : SessionState) :
  reachable st -> config_ok cfg = true -> noise_ok nz = true ->
  exists st' m d1 d2 d3,
    streaming_iteration cfg nz now st = inl (st', Some m) /\
    data st' = data st
               ++ interval_rows d1 d2 d3 (d1 + d2 + d3) (inspections_per_interval cfg) now /\
    total_inspected m
    = total (tag_counts "tag-5" (data st)) + inspections_per_interval cfg /\
    total_defects m = total (tag_counts "tag-4" (data st)) + (d1 + d2 + d3) /\
    batch m = batch_name cfg.
Proof.
  intros Hreach. apply streaming_iteration_metrics, reachable_store_inv, Hreach.
Qed.

Lemma streaming_iteration_shows_totals_witness :
  exists st' m d1 d2 d3,
    streaming_iteration scenario_config (mkNoise 1 (-2) 2) 30 scenario_step
    = inl (st', Some m) /\
    data st' = data scenario_step ++ interval_rows d1 d2 d3 (d1 + d2 + d3) 500 30 /\
    total_inspected m = total (tag_counts "tag-5" (data scenario_step)) + 500 /\
    total_defects m = total (tag_counts "tag-4" (data scenario_step)) + (d1 + d2 + d3) /\
    batch m = "Batch-1".
Proof.
  apply (streaming_iteration_shows_totals scenario_config (mkNoise 1 (-2) 2) 30 scenario_step).
  - apply (reach_iteration scenario_state scenario_step scenario_config (mkNoise 0 0 0) 20
             (Some (mkMetrics 500 16 (S754_finite false 7205759403792794 (-51)) "Batch-1"))).
    + apply reach_button, reach_init.
    + reflexivity.
    + reflexivity.
    + reflexivity.
    + vm_compute. reflexivity.
  - reflexivity.
  - reflexivity.
Defined.

(** ** Further properties of the loop and of whole runs *)

(** X10.  The loop entered in a reachable, streaming state with the
    sliders in range never leaves by itself and raises nothing: however
    many iterations are followed, the run is still inside the loop with the
    streaming flag set and the start time unchanged; every iteration has
    displayed a metrics record and appended one interval stamped with its
    clock reading and carrying the configured inspection count; no marker
    was added. *)
Theorem streaming_loop_never_exits (cfg : Config) (env : list (Noise * datetime))
    (st : SessionState) :
  reachable st -> streaming st = true ->
  config_ok cfg = true ->
  Forall (fun p => noise_ok (fst p) = true) env ->
  exists st' shown,
    streaming_loop cfg env st = inl (Interrupted, st', shown) /\
    reachable st' /\
    streaming st' = true /\
    start_time st' = start_time st /\
    List.length shown = List.length env /\
    Forall (fun m => m <> None) shown /\
    tag_times "tag-5" (data st') = tag_times "tag-5" (data st) ++ map snd env /\
    tag_counts "tag-5" (data st')
    = tag_counts "tag-5" (data st)
      ++ repeat (inspections_per_interval cfg) (List.length env) /\
    Pandas.select_tag "tag-0" (data st') = Pandas.select_tag "tag-0" (data st).
Proof.
  intros Hreach Hrun Hcfg Henv. apply streaming_loop_spec; assumption.
Qed.

Lemma streaming_loop_never_exits_witness :
  exists st' shown,
    streaming_loop scenario_config scenario_env scenario_state
    = inl (Interrupted, st', shown) /\
    reachable st' /\
    streaming st' = true /\
    start_time st' = start_time scenario_state /\
    List.length shown = List.length scenario_env /\
    Forall (fun m => m <> None) shown /\
    tag_times "tag-5" (data st')
    = tag_times "tag-5" (data scenario_state) ++ map snd scenario_env /\
    tag_counts "tag-5" (data st')
    = tag_counts "tag-5" (data scenario_state)
      ++ repeat (inspections_per_interval scenario_config) (List.length scenario_env) /\
    Pandas.select_tag "tag-0" (data st') = Pandas.select_tag "tag-0" (data scenario_state).
Proof.
  apply (streaming_loop_never_exits scenario_config scenario_env scenario_state).
  - apply reach_button, reach_init.
  - reflexivity.
  - reflexivity.
  - repeat constructor.
Defined.

Lemma final_display_total (name : string) (st : SessionState) :
  store_inv st -> exists shown, final_display name st = inl shown.
Proof.
  intros Hinv. unfold final_display.
  destruct (negb (streaming st) && negb (Pandas.empty (data st))).
  - destruct (display_metrics_spec name st Hinv) as [[_ E]|(rate & _ & E & _)];
      eexists; exact E.
  - eexists. reflexivity.
Qed.

(** X11.  A run of the script in which the Save Data button is not
    clicked, started in a reachable state with the sliders in range, raises
    nothing and ends in a reachable state.  When the stream is stopped once
    the Start/Stop handler is through, the run changes nothing else and
    shows the final block once; when it is running, the run stays in the
    loop, displays one metrics record per iteration and appends five rows
    per iteration. *)
Theorem script_run_safe (cfg : Config) (pressed : bool) (now : datetime)
    (env : list (Noise * datetime)) (st : SessionState) :
  reachable st -> config_ok cfg = true ->
  Forall (fun p => noise_ok (fst p) = true) env ->
  let st1 := if pressed then start_stop_button (batch_name cfg) now st else st in
  exists st' shown,
    script_run cfg pressed now env st = inl (st', shown) /\
    reachable st' /\
    streaming st' = streaming st1 /\
    (streaming st1 = false ->
     st' = st1 /\
     exists m, shown = [m] /\ final_display (batch_name cfg) st1 = inl m) /\
    (streaming st1 = true ->
     List.length shown = List.length env /\
     Forall (fun m => m <> None) shown /\
     List.length (data st') = (List.length (data st1) + 5 * List.length env)%nat).
Proof.
  intros Hreach Hcfg Henv st1.
  assert (Hreach1 : reachable st1).
  { unfold st1. destruct pressed; [apply reach_button|]; exact Hreach. }
  unfold script_run. fold st1.
  destruct (streaming st1) eqn:Hrun.
  - destruct (streaming_loop_spec cfg env Hcfg Henv st1 Hreach1 Hrun)
      as (st' & shown & Eloop & Hreach' & Hrun' & _ & Hlen & Hall & _ & Hc & H0).
    rewrite Eloop. cbn [bind ret fst snd].
    exists st', shown.
    split; [reflexivity|]. split; [exact Hreach'|]. split; [exact Hrun'|].
    split; [discriminate|]. intros _.
    split; [exact Hlen|]. split; [exact Hall|].
    destruct (reachable_log_shape st' Hreach') as [Hs' _].
    destruct (reachable_log_shape st1 Hreach1) as [Hs1 _].
    rewrite (log_shape_length _ Hs'), (log_shape_length _ Hs1), H0.
    apply (f_equal (@List.length Z)) in Hc.
    unfold tag_counts, counts in Hc. rewrite length_app, repeat_length, !length_map in Hc.
    rewrite Hc. lia.
  - assert (Eloop : streaming_loop cfg env st1 = inl (LoopExit, st1, [])).
    { destruct env as [|[nz t] env]; cbn [streaming_loop]; rewrite Hrun; reflexivity. }
    rewrite Eloop. cbn [bind ret fst snd].
    destruct (final_display_total (batch_name cfg) st1 (reachable_store_inv st1 Hreach1))
      as (m & Em).
    rewrite Em. cbn [bind ret app].
    exists st1, [m].
    split; [reflexivity|]. split; [exact Hreach1|]. split; [exact Hrun|].
    split; [|discriminate]. intros _.
    split; [reflexivity|]. exists m. split; reflexivity.
Qed.

Lemma script_run_safe_witness :
  exists st' shown,
    script_run scenario_config true 10 scenario_env (initial_state 0) = inl (st', shown) /\
    reachable st' /\
    streaming st' = streaming scenario_state /\
    (streaming scenario_state = false ->
     st' = scenario_state /\
     exists m, shown = [m] /\ final_display "Batch-1" scenario_state = inl m) /\
    (streaming scenario_state = true ->
     List.length shown = List.length scenario_env /\
     Forall (fun m => m <> None) shown /\
     List.length (data st')
     = (List.length (data scenario_state) + 5 * List.length scenario_env)%nat).
Proof.
  apply (script_run_safe scenario_config true 10 scenario_env (initial_state 0)).
  - apply reach_init.
  - reflexivity.
  - repeat constructor.
Defined.

(** X12.  When a running stream is stopped, the final block of that run
    shows what the metrics block shows for the state the loop had reached:
    the stop changes neither the log nor the view, and the log of a running
    stream is never empty. *)
Theorem final_display_after_stop (st : SessionState) (name name' : string)
    (now : datetime) :
  reachable st -> streaming st = true ->
  data (start_stop_button name' now st) = data st /\
  cumulative_data (start_stop_button name' now st) = cumulative_data st /\
  final_display name (start_stop_button name' now st) = display_metrics name st /\
  exists shown, display_metrics name st = inl shown.
Proof.
  intros Hreach Hrun.
  destruct (reachable_log_shape st Hreach) as [_ Hne].
  unfold start_stop_button. rewrite Hrun. cbn [negb data cumulative_data].
  repeat split.
  - unfold final_display. cbn [streaming data negb andb].
    destruct (data st) eqn:E; [contradiction (Hne Hrun); reflexivity|].
    cbn [Pandas.empty negb]. unfold display_metrics. cbn [data cumulative_data].
    rewrite E. reflexivity.
  - destruct (display_metrics_spec name st (reachable_store_inv st Hreach))
      as [[_ E]|(rate & _ & E & _)]; eexists; exact E.
Qed.

Lemma final_display_after_stop_witness :
  final_display "Batch-1" (start_stop_button "Batch-1" 40 scenario_run)
  = inl (Some (mkMetrics 1000 33 (S754_finite false 7430939385161319 (-51)) "Batch-1")) /\
  data (start_stop_button "Batch-1" 40 scenario_run) = data scenario_run /\
  cumulative_data (start_stop_button "Batch-1" 40 scenario_run)
  = cumulative_data scenario_run /\
  final_display "Batch-1" (start_stop_button "Batch-1" 40 scenario_run)
  = display_metrics "Batch-1" scenario_run /\
  exists shown, display_metrics "Batch-1" scenario_run = inl shown.
Proof.
  split; [vm_compute; reflexivity|].
  apply (final_display_after_stop scenario_run "Batch-1" "Batch-1" 40).
  - exact scenario_run_reachable.
  - reflexivity.
Defined.

(** ** The plots *)

Lemma trace_tag (tag : string) (log : DataFrame) :
  numeric (Pandas.select_tag tag log) = true ->
  trace (Pandas.select_tag tag log)
  = combine (tag_times tag log) (map VInt (tag_counts tag log)).
Proof.
  intros Hnum. unfold tag_times, tag_counts.
  rewrite <- (numeric_counts _ Hnum). unfold trace. clear Hnum.
  induction (Pandas.select_tag tag log) as [|r t IH]; cbn; [reflexivity|].
  f_equal. exact IH.
Qed.

Lemma empty_tag_times (tag : string) (log : DataFrame) :
  Pandas.empty (Pandas.select_tag tag log)
  = match tag_times tag log with [] => true | _ :: _ => false end.
Proof. unfold tag_times. destruct (Pandas.select_tag tag log); reflexivity. Qed.

Lemma empty_running_frame (tag : string) (log : DataFrame) :
  Pandas.empty (running_frame tag log) = Pandas.empty (Pandas.select_tag tag log).
Proof.
  unfold running_frame, running_rows.
  destruct (Pandas.select_tag tag log) as [|r t]; [reflexivity|].
  cbn [counts map]. rewrite prefix_sums_cons. reflexivity.
Qed.

Lemma expected_view_tag (tag : string) (log : DataFrame) :
  expected_view tag log
  = combine (tag_times tag log) (map VInt (prefix_sums (tag_counts tag log))).
Proof. reflexivity. Qed.

(** X13.  In every reachable state [create_plots] returns no trace at all
    before the first interval, and afterwards exactly three traces tag-1,
    tag-2, tag-3 in the first figure and one trace in each of the other
    two, all five over the same time axis: the first figure plots the
    per-interval counts, the second the running sums of their interval
    totals, the third the running sums of the inspection counts. *)
Theorem create_plots_reachable (st : SessionState) :
  reachable st ->
  create_plots st
  = expected_plots (tag_times "tag-5" (data st))
      (tag_counts "tag-1" (data st)) (tag_counts "tag-2" (data st))
      (tag_counts "tag-3" (data st)) (tag_counts "tag-5" (data st)).
Proof.
  intros Hreach.
  destruct (reachable_store_inv st Hreach) as (_ & _ & _ & _ & _ & _ & Hcum).
  destruct (reachable_log_shape st Hreach) as [Hs _].
  destruct (log_shape_times _ Hs) as (T1 & T2 & T3 & T4).
  pose proof (log_shape_sum _ Hs) as Hsum.
  assert (N1 : numeric (Pandas.select_tag "tag-1" (data st)) = true)
    by (apply log_shape_numeric; [exact Hs|cbn; tauto]).
  assert (N2 : numeric (Pandas.select_tag "tag-2" (data st)) = true)
    by (apply log_shape_numeric; [exact Hs|cbn; tauto]).
  assert (N3 : numeric (Pandas.select_tag "tag-3" (data st)) = true)
    by (apply log_shape_numeric; [exact Hs|cbn; tauto]).
  unfold create_plots, add_trace. cbn [fold_left].
  rewrite Hcum, select_running_4, select_running_5.
  rewrite !empty_running_frame, !empty_tag_times.
  rewrite !trace_running_frame, !expected_view_tag.
  rewrite (trace_tag _ _ N1), (trace_tag _ _ N2), (trace_tag _ _ N3).
  rewrite Hsum, T1, T2, T3, T4.
  destruct (tag_times "tag-5" (data st)); reflexivity.
Qed.

Lemma create_plots_reachable_witness :
  create_plots scenario_run
  = ([ ("tag-1", [(20, VInt 5); (30, VInt 6)]);
       ("tag-2", [(20, VInt 7); (30, VInt 5)]);
       ("tag-3", [(20, VInt 4); (30, VInt 6)]) ],
     [ ("Total Cumulative Defects", [(20, VInt 16); (30, VInt 33)]) ],
     [ ("Total Inspected", [(20, VInt 500); (30, VInt 1000)]) ]) /\
  create_plots scenario_run
  = expected_plots (tag_times "tag-5" (data scenario_run))
      (tag_counts "tag-1" (data scenario_run)) (tag_counts "tag-2" (data scenario_run))
      (tag_counts "tag-3" (data scenario_run)) (tag_counts "tag-5" (data scenario_run)).
Proof.
  split; [vm_compute; reflexivity|].
  apply (create_plots_reachable scenario_run). exact scenario_run_reachable.
Defined.

(** ** The stored view on arbitrary logs *)

Lemma accumulate_length (cells : list value) : forall acc column,
  Pandas.accumulate acc cells = inl column -> List.length column = List.length cells.
Proof.
  induction cells as [|x rest IH]; intros acc column; cbn [Pandas.accumulate].
  - intros H. injection H as <-. reflexivity.
  - destruct (Pandas.add acc x) as [s|e]; cbn [bind]; [|discriminate].
    destruct (Pandas.accumulate s rest) as [tl|e] eqn:E; cbn [bind ret]; [|discriminate].
    intros H. injection H as <-. cbn. f_equal. exact (IH _ _ E).
Qed.

Lemma cumsum_length (cells column : list value) :
  Pandas.cumsum cells = inl column -> List.length column = List.length cells.
Proof.
  destruct cells as [|x rest]; cbn [Pandas.cumsum].
  - intros H. injection H as <-. reflexivity.
  - destruct (Pandas.accumulate x rest) as [tl|e] eqn:E; cbn [bind ret]; [|discriminate].
    intros H. injection H as <-. cbn. f_equal. exact (accumulate_length _ _ _ E).
Qed.

Lemma set_TAGVALUE_keys (df : DataFrame) : forall column,
  List.length column = List.length df ->
  map TAGNAME (Pandas.set_TAGVALUE df column) = map TAGNAME df /\
  map TIMESTAMP (Pandas.set_TAGVALUE df column) = map TIMESTAMP df.
Proof.
  unfold Pandas.set_TAGVALUE.
  induction df as [|r t IH]; intros [|v column] H; cbn in H; try discriminate.
  - split; reflexivity.
  - destruct (IH column ltac:(lia)) as [E1 E2]. cbn. rewrite E1, E2. split; reflexivity.
Qed.

(** X14.  On any session state, whatever its cells hold, a call of
    [update_cumulative_data] that returns has left the log, the streaming
    flag and the start time alone; and unless the log has neither tag-4 nor
    tag-5 samples, the view it stored has one row per tag-4 and tag-5
    sample, all tag-4 rows before all tag-5 rows, each with the tag and
    the timestamp of its sample. *)
Theorem update_cumulative_data_keys (st st' : SessionState) :
  update_cumulative_data st = inl st' ->
  data st' = data st /\ streaming st' = streaming st /\
  start_time st' = start_time st /\
  (Pandas.select_tag "tag-4" (data st) ++ Pandas.select_tag "tag-5" (data st) <> [] ->
   map TAGNAME (cumulative_data st')
   = map TAGNAME (Pandas.select_tag "tag-4" (data st)
                  ++ Pandas.select_tag "tag-5" (data st)) /\
   map TIMESTAMP (cumulative_data st')
   = map TIMESTAMP (Pandas.select_tag "tag-4" (data st)
                    ++ Pandas.select_tag "tag-5" (data st))).
Proof.
  intros H.
  destruct (update_cumulative_data_frame _ _ H) as (Hd & Hs & Ht).
  split; [exact Hd|]. split; [exact Hs|]. split; [exact Ht|].
  revert H. unfold update_cumulative_data. cbn [cumulative_frames].
  set (f4 := Pandas.select_tag "tag-4" (data st)).
  set (f5 := Pandas.select_tag "tag-5" (data st)).
  assert (Hstep : forall f column,
            Pandas.cumsum (map TAGVALUE f) = inl column ->
            map TAGNAME (Pandas.set_TAGVALUE f column) = map TAGNAME f /\
            map TIMESTAMP (Pandas.set_TAGVALUE f column) = map TIMESTAMP f).
  { intros f column E. apply set_TAGVALUE_keys.
    rewrite (cumsum_length _ _ E). apply length_map. }
  destruct f4 as [|r4 t4] eqn:E4; cbn [Pandas.empty negb].
  - destruct f5 as [|r5 t5] eqn:E5; cbn [Pandas.empty negb bind ret app].
    + intros _ Hne. contradiction Hne. reflexivity.
    + destruct (Pandas.cumsum (map TAGVALUE (r5 :: t5))) as [c5|e] eqn:C5;
        cbn [bind ret]; [|discriminate].
      intros H _. injection H as <-. cbn [cumulative_data Pandas.concat List.concat].
      rewrite app_nil_r. exact (Hstep _ _ C5).
  - destruct (Pandas.cumsum (map TAGVALUE (r4 :: t4))) as [c4|e] eqn:C4;
      cbn [bind ret app]; [|discriminate].
    destruct (Hstep _ _ C4) as [N4 T4].
    destruct f5 as [|r5 t5] eqn:E5; cbn [Pandas.empty negb bind ret app].
    + intros H _. injection H as <-. cbn [cumulative_data Pandas.concat List.concat].
      rewrite !app_nil_r. split; assumption.
    + destruct (Pandas.cumsum (map TAGVALUE (r5 :: t5))) as [c5|e] eqn:C5;
        cbn [bind ret]; [|discriminate].
      destruct (Hstep _ _ C5) as [N5 T5].
      intros H _. injection H as <-. cbn [cumulative_data Pandas.concat List.concat].
      rewrite app_nil_r, !map_app, N4, T4, N5, T5.
      split; cbn [map app]; rewrite ?map_app; reflexivity.
Qed.

Lemma update_cumulative_data_keys_witness :
  exists st',
    update_cumulative_data defects_only_state = inl st' /\
    data st' = data defects_only_state /\
    streaming st' = streaming defects_only_state /\
    start_time st' = start_time defects_only_state /\
    (Pandas.select_tag "tag-4" (data defects_only_state)
     ++ Pandas.select_tag "tag-5" (data defects_only_state) <> [] ->
     map TAGNAME (cumulative_data st')
     = map TAGNAME (Pandas.select_tag "tag-4" (data defects_only_state)
                    ++ Pandas.select_tag "tag-5" (data defects_only_state)) /\
     map TIMESTAMP (cumulative_data st')
     = map TIMESTAMP (Pandas.select_tag "tag-4" (data defects_only_state)
                      ++ Pandas.select_tag "tag-5" (data defects_only_state))).
Proof.
  eexists. split; [vm_compute; reflexivity|].
  apply (update_cumulative_data_keys defects_only_state).
  vm_compute. reflexivity.
Defined.


(** ** The batch markers of a session *)





